(** * WaveLogGoat: the polling bridge of [waveloggoat.go]

    A shallow embedding of the polling and translation engine of
    WaveLogGoat: the radio snapshot [RigData], the two readers
    ([FlrigClient.GetData] over XML-RPC, [HamlibClient.GetData] over a
    line-oriented TCP connection), the JSON payload of [postToWavelog],
    the configuration merge and start-up validation of [main], and the
    poll loop with its last-forwarded baseline.

    Go's [float64] is modelled by the IEEE-754 specification type
    [spec_float] of the Standard Library (binary64: precision 53,
    [emax] 1024), Go's [int] by [Z], Go's [string] by [string], the map of
    stored profiles by a [gmap].  What the program obtains from outside
    (replies of the radio daemons, the HTTP exchange, the command line)
    is an explicit argument of the function that consumes it. *)

From Stdlib Require Import ZArith Lia Bool List String Ascii.
From Stdlib Require Import Floats.SpecFloat DecimalString.
From stdpp Require Import base gmap strings.
Import ListNotations.

Local Open Scope string_scope.
Local Open Scope Z_scope.

(** ** Go's [float64] *)

Module Float64.

Definition prec : Z := 53.
Definition emax : Z := 1024.

(** A [float64] value.  Values read from the outside world are the
    canonical ones, [valid t = true]; no theorem below needs the
    restriction. *)
Definition t : Type := spec_float.

Definition valid (x : t) : bool := valid_binary prec emax x.

Definition zero : t := S754_zero false.
Definition neg_zero : t := S754_zero true.
Definition nan : t := S754_nan.

(** Go's [==] on [float64]: IEEE-754 equality. *)
Definition eqb (x y : t) : bool := SFeqb x y.

(** [float64(n)] for an [int] [n]: round to nearest, ties to even. *)
Definition of_int (n : Z) : t := binary_normalize prec emax n 0 false.

Definition is_zero (x : t) : bool :=
  match x with S754_zero _ => true | _ => false end.

Definition is_nan (x : t) : bool :=
  match x with S754_nan => true | _ => false end.

(** Neither NaN nor an infinity: the values [encoding/json] can encode. *)
Definition is_finite (x : t) : bool :=
  match x with
  | S754_zero _ | S754_finite _ _ _ => true
  | S754_infinity _ | S754_nan => false
  end.

(** The fraction discarded (truncation towards zero), where the value
    is a number: [m * 2^e] keeps [m * 2^e] when [e >= 0] and the
    quotient of [m] by [2^-e] otherwise. *)
Definition truncate (x : t) : option Z :=
  match x with
  | S754_zero _ => Some 0
  | S754_finite s m e =>
      let a := if 0 <=? e then Z.pos m * 2 ^ e else Z.pos m / 2 ^ (- e) in
      Some (if s then - a else a)
  | S754_infinity _ | S754_nan => None
  end.

(** Same value under [==] in structural terms: the same non-NaN datum,
    or two zeros of any signs. *)
Definition same (x y : t) : Prop :=
  (x = y /\ x <> nan) \/ (is_zero x = true /\ is_zero y = true).

End Float64.

(** ** Errors and results *)

(** Go's [error] values, by origin: an error handed back by a library
    (net, xmlrpc, strconv, encoding/json, net/http), an error wrapped
    with context by [fmt.Errorf("...: %w", err)], and the two errors the
    program makes itself. *)
Inductive error : Type :=
| External (msg : string)
| Wrapped (context : string) (cause : error)
| InvalidModeResponse (modeResp : string)
| Non200Status (StatusCode : Z) (body : string).

(** A Go call returning [(T, error)] where the value is only read when
    the error is nil. *)
Inductive result (A : Type) : Type :=
| Ok (a : A)
| Failed (e : error).
Arguments Ok {A} a.
Arguments Failed {A} e.

(** ** The Go library functions the program calls

    The program's own code is modelled below; what it calls in Go's
    standard library is taken as an interface.  [intSize] is the width of
    [int] and [int_of_unrepresentable] what the platform yields when a
    [float64] that [int] cannot hold is converted (the language leaves it
    to the implementation). *)
Class GoLib : Type := {
  ParseFloat : string -> Float64.t * option error;   (* strconv.ParseFloat(s, 64) *)
  Fields : string -> list string;                     (* strings.Fields *)
  ToLower : string -> string;                         (* strings.ToLower *)
  ParseDuration : string -> Z * option error;         (* time.ParseDuration *)
  intSize : Z;
  intSize_32_or_64 : intSize = 32 \/ intSize = 64;
  int_of_unrepresentable : Float64.t -> Z
}.

(** ** Data model *)

(** [RigData] holds the radio state as provided by flrig or hamlib. *)
Record RigData : Type := {
  FreqVFOA : Float64.t;
  FreqVFOB : Float64.t;
  Mode : string;
  ModeB : string;
  Split : Z;
  Power : Float64.t
}.

(** The zero value [RigData{}], also that of [var lastData RigData]. *)
Definition RigData_zero : RigData :=
  {| FreqVFOA := Float64.zero; FreqVFOB := Float64.zero;
     Mode := ""; ModeB := ""; Split := 0; Power := Float64.zero |}.

(** Go's [==] on two [RigData]: every field compared with its own [==]. *)
Definition RigData_eqb (x y : RigData) : bool :=
  Float64.eqb (FreqVFOA x) (FreqVFOA y)
  && Float64.eqb (FreqVFOB x) (FreqVFOB y)
  && String.eqb (Mode x) (Mode y)
  && String.eqb (ModeB x) (ModeB y)
  && Z.eqb (Split x) (Split y)
  && Float64.eqb (Power x) (Power y).

(** [WavelogJSONRequest]: the payload of the Wavelog API update.  The
    fields tagged [omitempty] are [FrequencyRX] and [ModeRX]. *)
Record WavelogJSONRequest : Type := {
  Key : string;
  Radio : string;
  payload_Power : Float64.t;
  Frequency : Z;
  payload_Mode : string;
  FrequencyRX : Z;
  ModeRX : string
}.

Record ProfileConfig : Type := {
  WavelogURL : string;
  WavelogKey : string;
  RadioName : string;
  FlrigHost : string;
  FlrigPort : Z;
  HamlibHost : string;
  HamlibPort : Z;
  Interval : string;
  DataSource : string;
  LogLevel : string
}.

(** [Profiles] is a Go map: [None] is the nil map, which a configuration
    file without a profiles member decodes to; [Some m] a map made. *)
Record ConfigFile : Type := {
  DefaultProfile : string;
  Profiles : option (gmap string ProfileConfig)
}.

(** [p, ok := cfgFile.Profiles[name]]: reading a nil map finds nothing. *)
Definition lookup_profile (cfgFile : ConfigFile) (name : string) : option ProfileConfig :=
  match Profiles cfgFile with
  | Some m => m !! name
  | None => None
  end.

(** The two implementations of the [RadioClient] interface. *)
Inductive RadioClient : Type :=
| FlrigClient (Host : string) (Port : Z)
| HamlibClient (Host : string) (Port : Z).

(** ** The outside world *)

(** An flrig daemon as one [GetData] sees it: whether [xmlrpc.NewClient]
    succeeds, and the outcome of [client.Call] per method name, decoded
    into a [string] or an [int] target. *)
Record XmlRpcServer : Type := {
  NewClient : option error;
  Call_string : string -> result string;
  Call_int : string -> result Z
}.

(** A rigctld daemon as one [GetData] sees it: whether [net.Dial]
    succeeds, the outcome of writing each command, and the outcome of
    the n-th [ReadLine] on the connection (the frequency reply is read
    first, the mode reply second, the power reply third). *)
Record Rigctld : Type := {
  Dial : option error;
  Fprintf : string -> option error;
  ReadLine : nat -> result string
}.

(** JSON as [encoding/json] writes the payload: an object, its members in
    the order of the struct's fields. *)
Inductive JSONValue : Type :=
| JString (s : string)
| JInt (n : Z)
| JFloat (x : Float64.t).

Definition JSONObject : Type := list (string * JSONValue).

(** What becomes of one POST: [http.NewRequest] fails, [client.Do] fails
    (the ten-second timeout included), or a response arrives. *)
Inductive Exchange : Type :=
| NewRequestFailed (e : error)
| DoFailed (e : error)
| Response (StatusCode : Z) (body : string).

(** The world during one poll cycle. *)
Record World : Type := {
  flrig_at : string -> Z -> XmlRpcServer;
  rigctld_at : string -> Z -> Rigctld;
  http_post : string -> JSONObject -> Exchange
}.

(** ** The program *)

Definition newline : string := String "010"%char EmptyString.

(** *** Strings as [encoding/json] writes them

    A Go string is any sequence of bytes.  The encoder goes through it
    rune by rune with [utf8.DecodeRuneInString] and writes the
    replacement character U+FFFD for every byte that does not start a
    well-formed UTF-8 sequence. *)

Definition byte_value (c : ascii) : Z := Z.of_N (N_of_ascii c).

Definition between (lo hi : Z) (c : ascii) : bool :=
  (lo <=? byte_value c) && (byte_value c <=? hi).

(** A continuation byte, 80..BF. *)
Definition continuation (c : ascii) : bool := between 128 191 c.

(** The well-formed sequences of two, three and four bytes. *)
Definition rune2 (b0 b1 : ascii) : bool :=
  between 194 223 b0 && continuation b1.

Definition rune3 (b0 b1 b2 : ascii) : bool :=
  ((byte_value b0 =? 224) && between 160 191 b1
   || between 225 236 b0 && continuation b1
   || (byte_value b0 =? 237) && between 128 159 b1
   || between 238 239 b0 && continuation b1)
  && continuation b2.

Definition rune4 (b0 b1 b2 b3 : ascii) : bool :=
  ((byte_value b0 =? 240) && between 144 191 b1
   || between 241 243 b0 && continuation b1
   || (byte_value b0 =? 244) && between 128 143 b1)
  && continuation b2 && continuation b3.

(** U+FFFD in UTF-8: EF BF BD. *)
Definition RuneError : string :=
  String "239"%char (String "191"%char (String "189"%char EmptyString)).

(** The string a JSON string written by [encoding/json] denotes. *)
Fixpoint coerceUTF8 (s : string) : string :=
  match s with
  | EmptyString => EmptyString
  | String b0 s1 =>
    if byte_value b0 <? 128 then String b0 (coerceUTF8 s1)
    else
      match s1 with
      | String b1 s2 =>
        if rune2 b0 b1 then String b0 (String b1 (coerceUTF8 s2))
        else
          match s2 with
          | String b2 s3 =>
            if rune3 b0 b1 b2 then String b0 (String b1 (String b2 (coerceUTF8 s3)))
            else
              match s3 with
              | String b3 s4 =>
                if rune4 b0 b1 b2 b3
                then String b0 (String b1 (String b2 (String b3 (coerceUTF8 s4))))
                else RuneError ++ coerceUTF8 s1
              | EmptyString => RuneError ++ coerceUTF8 s1
              end
          | EmptyString => RuneError ++ coerceUTF8 s1
          end
      | EmptyString => RuneError ++ coerceUTF8 s1
      end
  end.

(** [utf8.ValidString]: the string is well-formed UTF-8 throughout. *)
Fixpoint ValidString (s : string) : bool :=
  match s with
  | EmptyString => true
  | String b0 s1 =>
    if byte_value b0 <? 128 then ValidString s1
    else
      match s1 with
      | String b1 s2 =>
        if rune2 b0 b1 then ValidString s2
        else
          match s2 with
          | String b2 s3 =>
            if rune3 b0 b1 b2 then ValidString s3
            else
              match s3 with
              | String b3 s4 => if rune4 b0 b1 b2 b3 then ValidString s4 else false
              | EmptyString => false
              end
          | EmptyString => false
          end
      | EmptyString => false
      end
  end.

Section Program.

Context `{GoLib}.

(** *** Conversions *)

Definition fits_int (z : Z) : bool :=
  (- 2 ^ (intSize - 1) <=? z) && (z <? 2 ^ (intSize - 1)).

(** Go's [int(x)] for a [float64] [x]: the fraction is discarded; a
    value [int] cannot hold converts to whatever the platform yields. *)
Definition float64_to_int (x : Float64.t) : Z :=
  match Float64.truncate x with
  | Some z => if fits_int z then z else int_of_unrepresentable x
  | None => int_of_unrepresentable x
  end.

(** *** [FlrigClient.GetData] *)

Definition FlrigClient_GetData (srv : XmlRpcServer) : RigData * option error :=
  match NewClient srv with
  | Some err => (RigData_zero, Some err)
  | None =>
  match Call_string srv "rig.get_vfo" with
  | Failed err => (RigData_zero, Some (Wrapped "call failed to rig.get_vfo" err))
  | Ok vfoA =>
  match ParseFloat vfoA with
  | (_, Some err) => (RigData_zero, Some err)
  | (freqA, None) =>
  match Call_string srv "rig.get_mode" with
  | Failed err => (RigData_zero, Some (Wrapped "call failed to rig.get_mode" err))
  | Ok mode =>
  let power := match Call_int srv "rig.get_power" with
               | Failed _ => 0
               | Ok p => p
               end in
  let split := match Call_int srv "rig.get_split" with
               | Failed _ => 0
               | Ok s => s
               end in
  let vfoB := match Call_string srv "rig.get_vfoB" with
              | Failed _ => vfoA
              | Ok v => v
              end in
  match ParseFloat vfoB with
  | (_, Some err) => (RigData_zero, Some err)
  | (freqB, None) =>
  let modeB := match Call_string srv "rig.get_modeB" with
               | Failed _ => mode
               | Ok m => m
               end in
  ({| FreqVFOA := freqA; FreqVFOB := freqB; Mode := mode; ModeB := modeB;
      Split := split; Power := Float64.of_int power |}, None)
  end end end end end.

(** *** [HamlibClient.GetData] *)

(** Lines 237-257: the power query, every failure of which sends 0. *)
Definition hamlib_power (d : Rigctld) : Float64.t :=
  match Fprintf d ("P" ++ newline) with
  | Some _ => Float64.zero
  | None =>
    match ReadLine d 2%nat with
    | Failed _ => Float64.zero
    | Ok powerStr =>
      match ParseFloat powerStr with
      | (_, Some _) => Float64.zero
      | (powerPercent, None) => powerPercent
      end
    end
  end.

Definition HamlibClient_GetData (d : Rigctld) : RigData * option error :=
  match Dial d with
  | Some err => (RigData_zero, Some (Wrapped "hamlib connection error" err))
  | None =>
  match Fprintf d ("f" ++ newline) with
  | Some err => (RigData_zero, Some (Wrapped "failed to send 'f' command to hamlib" err))
  | None =>
  match ReadLine d 0%nat with
  | Failed err =>
      (RigData_zero, Some (Wrapped "failed to read frequency response from hamlib" err))
  | Ok freqStr =>
  match ParseFloat freqStr with
  | (_, Some err) =>
      (RigData_zero, Some (Wrapped ("failed to parse frequency '" ++ freqStr ++ "'") err))
  | (freqA, None) =>
  match Fprintf d ("m" ++ newline) with
  | Some err => (RigData_zero, Some (Wrapped "failed to send 'm' command to hamlib" err))
  | None =>
  match ReadLine d 1%nat with
  | Failed err =>
      (RigData_zero, Some (Wrapped "failed to read mode response from hamlib" err))
  | Ok modeResp =>
  match Fields modeResp with
  | [] => (RigData_zero, Some (InvalidModeResponse modeResp))
  | mode :: _ =>
  ({| FreqVFOA := freqA; FreqVFOB := freqA; Mode := mode; ModeB := mode;
      Split := 0; Power := hamlib_power d |}, None)
  end end end end end end end.

(** The interface method, dispatched on the implementation. *)
Definition GetData (client : RadioClient) (w : World) : RigData * option error :=
  match client with
  | FlrigClient Host Port => FlrigClient_GetData (flrig_at w Host Port)
  | HamlibClient Host Port => HamlibClient_GetData (rigctld_at w Host Port)
  end.

(** *** [postToWavelog] *)

(** Lines 267-279: the payload, with the split-aware swap. *)
Definition buildPayload (config : ProfileConfig) (data : RigData) : WavelogJSONRequest :=
  let payload :=
    {| Key := WavelogKey config; Radio := RadioName config;
       payload_Power := Power data;
       Frequency := float64_to_int (FreqVFOA data);
       payload_Mode := Mode data;
       FrequencyRX := 0; ModeRX := "" |} in
  if negb (Split data =? 0) then
    {| Key := Key payload; Radio := Radio payload;
       payload_Power := payload_Power payload;
       Frequency := float64_to_int (FreqVFOB data);
       payload_Mode := ModeB data;
       FrequencyRX := float64_to_int (FreqVFOA data);
       ModeRX := Mode data |}
  else payload.

(** [json.Marshal] of a [WavelogJSONRequest]: an unsupported-value
    error for a power that is NaN or infinite; otherwise the members in
    field order, an [omitempty] member left out when the field is 0 or
    the empty string, and every string written as [coerceUTF8] has it. *)
Definition Marshal (payload : WavelogJSONRequest) : result JSONObject :=
  if Float64.is_finite (payload_Power payload) then
    Ok (([ ("key", JString (coerceUTF8 (Key payload)));
          ("radio", JString (coerceUTF8 (Radio payload)));
          ("power", JFloat (payload_Power payload));
          ("frequency", JInt (Frequency payload));
          ("mode", JString (coerceUTF8 (payload_Mode payload))) ]
        ++ (if FrequencyRX payload =? 0 then []
            else [("frequency_rx", JInt (FrequencyRX payload))])
        ++ (if String.eqb (ModeRX payload) "" then []
            else [("mode_rx", JString (coerceUTF8 (ModeRX payload)))]))%list)
  else Failed (External "json: unsupported value").

Definition postToWavelog (config : ProfileConfig) (data : RigData)
    (post : string -> JSONObject -> Exchange) : option error :=
  match Marshal (buildPayload config data) with
  | Failed err => Some (Wrapped "failed to marshal JSON payload" err)
  | Ok jsonPayload =>
    let url := WavelogURL config ++ "/api/radio" in
    match post url jsonPayload with
    | NewRequestFailed err => Some (Wrapped "failed to create HTTP request" err)
    | DoFailed err => Some (Wrapped "failed to execute HTTP request" err)
    | Response StatusCode body =>
        if negb (StatusCode =? 200) then Some (Non200Status StatusCode body)
        else None
    end
  end.

(** The member of a JSON object under a key, if it has one. *)
Fixpoint member (k : string) (o : JSONObject) : option JSONValue :=
  match o with
  | [] => None
  | (k', v) :: o' => if String.eqb k k' then Some v else member k o'
  end.

(** *** [main]: configuration *)

Definition defaultConfig : ProfileConfig :=
  {| WavelogURL := "http://localhost/index.php";
     WavelogKey := "YOUR_API_KEY";
     RadioName := "RIG";
     FlrigHost := "127.0.0.1";
     FlrigPort := 12345;
     HamlibHost := "127.0.0.1";
     HamlibPort := 4532;
     Interval := "1s";
     DataSource := "flrig";
     LogLevel := "error" |}.

(** The command line after [flag.Parse]: the variables the flags are
    bound to, and [setFlags], the names of the flags that were given,
    which is what [flag.Visit] goes through. *)
Record CommandLine : Type := {
  currentProfileName : string;
  saveProfileName : string;
  setDefaultProfileName : string;
  wavelogURL : string;
  wavelogKey : string;
  radioName : string;
  flrigHost : string;
  flrigPort : Z;
  hamlibHost : string;
  hamlibPort : Z;
  interval : string;
  dataSource : string;
  logLevel : string;
  setFlags : list string
}.

(** Lines 370-376. *)
Definition profileToUse (cfgFile : ConfigFile) (cl : CommandLine) : string :=
  let p := DefaultProfile cfgFile in
  let p := if negb (String.eqb (currentProfileName cl) "")
           then currentProfileName cl else p in
  if String.eqb p "" then "default" else p.

(** Lines 379-382: the stored profile, when there is one, replaces the
    defaults. *)
Definition profileConfig (cfgFile : ConfigFile) (cl : CommandLine) : ProfileConfig :=
  match lookup_profile cfgFile (profileToUse cfgFile cl) with
  | Some p => p
  | None => defaultConfig
  end.

(** Lines 389-412: the function [flag.Visit] calls on each flag given. *)
Definition visit (cl : CommandLine) (c : ProfileConfig) (name : string) : ProfileConfig :=
  if String.eqb name "wavelog-url" then
    {| WavelogURL := wavelogURL cl; WavelogKey := WavelogKey c; RadioName := RadioName c;
       FlrigHost := FlrigHost c; FlrigPort := FlrigPort c; HamlibHost := HamlibHost c;
       HamlibPort := HamlibPort c; Interval := Interval c; DataSource := DataSource c;
       LogLevel := LogLevel c |}
  else if String.eqb name "wavelog-key" then
    {| WavelogURL := WavelogURL c; WavelogKey := wavelogKey cl; RadioName := RadioName c;
       FlrigHost := FlrigHost c; FlrigPort := FlrigPort c; HamlibHost := HamlibHost c;
       HamlibPort := HamlibPort c; Interval := Interval c; DataSource := DataSource c;
       LogLevel := LogLevel c |}
  else if String.eqb name "radio-name" then
    {| WavelogURL := WavelogURL c; WavelogKey := WavelogKey c; RadioName := radioName cl;
       FlrigHost := FlrigHost c; FlrigPort := FlrigPort c; HamlibHost := HamlibHost c;
       HamlibPort := HamlibPort c; Interval := Interval c; DataSource := DataSource c;
       LogLevel := LogLevel c |}
  else if String.eqb name "flrig-host" then
    {| WavelogURL := WavelogURL c; WavelogKey := WavelogKey c; RadioName := RadioName c;
       FlrigHost := flrigHost cl; FlrigPort := FlrigPort c; HamlibHost := HamlibHost c;
       HamlibPort := HamlibPort c; Interval := Interval c; DataSource := DataSource c;
       LogLevel := LogLevel c |}
  else if String.eqb name "flrig-port" then
    {| WavelogURL := WavelogURL c; WavelogKey := WavelogKey c; RadioName := RadioName c;
       FlrigHost := FlrigHost c; FlrigPort := flrigPort cl; HamlibHost := HamlibHost c;
       HamlibPort := HamlibPort c; Interval := Interval c; DataSource := DataSource c;
       LogLevel := LogLevel c |}
  else if String.eqb name "hamlib-host" then
    {| WavelogURL := WavelogURL c; WavelogKey := WavelogKey c; RadioName := RadioName c;
       FlrigHost := FlrigHost c; FlrigPort := FlrigPort c; HamlibHost := hamlibHost cl;
       HamlibPort := HamlibPort c; Interval := Interval c; DataSource := DataSource c;
       LogLevel := LogLevel c |}
  else if String.eqb name "hamlib-port" then
    {| WavelogURL := WavelogURL c; WavelogKey := WavelogKey c; RadioName := RadioName c;
       FlrigHost := FlrigHost c; FlrigPort := FlrigPort c; HamlibHost := HamlibHost c;
       HamlibPort := hamlibPort cl; Interval := Interval c; DataSource := DataSource c;
       LogLevel := LogLevel c |}
  else if String.eqb name "interval" then
    {| WavelogURL := WavelogURL c; WavelogKey := WavelogKey c; RadioName := RadioName c;
       FlrigHost := FlrigHost c; FlrigPort := FlrigPort c; HamlibHost := HamlibHost c;
       HamlibPort := HamlibPort c; Interval := interval cl; DataSource := DataSource c;
       LogLevel := LogLevel c |}
  else if String.eqb name "data-source" then
    {| WavelogURL := WavelogURL c; WavelogKey := WavelogKey c; RadioName := RadioName c;
       FlrigHost := FlrigHost c; FlrigPort := FlrigPort c; HamlibHost := HamlibHost c;
       HamlibPort := HamlibPort c; Interval := Interval c; DataSource := dataSource cl;
       LogLevel := LogLevel c |}
  else if String.eqb name "log-level" then
    {| WavelogURL := WavelogURL c; WavelogKey := WavelogKey c; RadioName := RadioName c;
       FlrigHost := FlrigHost c; FlrigPort := FlrigPort c; HamlibHost := HamlibHost c;
       HamlibPort := HamlibPort c; Interval := Interval c; DataSource := DataSource c;
       LogLevel := logLevel cl |}
  else c.

(** The effective configuration: [currentProfileConfig] after line 412. *)
Definition currentProfileConfig (cfgFile : ConfigFile) (cl : CommandLine) : ProfileConfig :=
  fold_left (visit cl) (setFlags cl) (profileConfig cfgFile cl).

(** Whether a flag of that name was given. *)
Definition given (cl : CommandLine) (name : string) : bool :=
  existsb (String.eqb name) (setFlags cl).

(** *** [main]: from the merge to the loop (lines 414-463) *)

(** The messages of [log.Fatalf], which ends the process. *)
Inductive Fatal : Type :=
| NoSuchProfile (name : string)
| SaveFailed (err : error)
| KeyRequired
| URLRequired
| InvalidDataSource (DataSource : string)
| InvalidInterval (err : error).

(** How [main] goes on from the merge: it ends the process with a fatal
    message, it returns (a profile command done), it panics (an
    assignment to an entry of a nil map), or it enters the loop. *)
Inductive Startup : Type :=
| Fatalf (why : Fatal)
| Returned
| Panicked
| Polling (client : RadioClient) (intervalDuration : Z).

Definition chooseClient (cfg : ProfileConfig) : option RadioClient :=
  let source := ToLower (DataSource cfg) in
  if String.eqb source "flrig" then Some (FlrigClient (FlrigHost cfg) (FlrigPort cfg))
  else if String.eqb source "hamlib" then Some (HamlibClient (HamlibHost cfg) (HamlibPort cfg))
  else None.

(** Lines 440-463: validation, choice of the client, the interval. *)
Definition startup (cfg : ProfileConfig) : Startup :=
  if String.eqb (WavelogKey cfg) "" || String.eqb (WavelogKey cfg) (WavelogKey defaultConfig)
  then Fatalf KeyRequired
  else if String.eqb (WavelogURL cfg) "" then Fatalf URLRequired
  else match chooseClient cfg with
       | None => Fatalf (InvalidDataSource (DataSource cfg))
       | Some client =>
         match ParseDuration (Interval cfg) with
         | (_, Some err) => Fatalf (InvalidInterval err)
         | (intervalDuration, None) => Polling client intervalDuration
         end
       end.

(** Lines 414-463: the two profile commands come first and end the run;
    [saveConfig] is what writing the configuration file comes to. *)
Definition main_from_merge (cfgFile : ConfigFile) (cl : CommandLine)
    (saveConfig : ConfigFile -> option error) : Startup :=
  let currentProfileConfig := currentProfileConfig cfgFile cl in
  if negb (String.eqb (setDefaultProfileName cl) "") then
    match lookup_profile cfgFile (setDefaultProfileName cl) with
    | None => Fatalf (NoSuchProfile (setDefaultProfileName cl))
    | Some _ =>
      match saveConfig {| DefaultProfile := setDefaultProfileName cl;
                          Profiles := Profiles cfgFile |} with
      | Some err => Fatalf (SaveFailed err)
      | None => Returned
      end
    end
  else if negb (String.eqb (saveProfileName cl) "") then
    match Profiles cfgFile with
    | None => Panicked
    | Some profiles =>
      match saveConfig {| DefaultProfile := DefaultProfile cfgFile;
                          Profiles := Some (<[saveProfileName cl := currentProfileConfig]>
                                              profiles) |} with
      | Some err => Fatalf (SaveFailed err)
      | None => Returned
      end
    end
  else startup currentProfileConfig.

(** *** [main]: the poll loop (lines 465-498) *)

Inductive Decision : Type := forward | skip.

(** Lines 484-487: the comparison with the last forwarded snapshot. *)
Definition ChangeGate (lastData currentData : RigData) : Decision :=
  if RigData_eqb currentData lastData then skip else forward.

(** What one pass through the loop body did. *)
Inductive Cycle : Type :=
| ReadFailed (err : error)
| Unchanged (currentData : RigData)
| PostFailed (currentData : RigData) (err : error)
| Posted (currentData : RigData).

(** One pass through the loop body, after the sleep: the new
    [lastData] and what was done.  Every branch of the body ends the
    pass ([continue], or the end of the body); what it logs, and at
    which level, is left out. *)
Definition cycle (client : RadioClient) (config : ProfileConfig)
    (lastData : RigData) (w : World) : RigData * Cycle :=
  match GetData client w with
  | (_, Some err) => (lastData, ReadFailed err)
  | (currentData, None) =>
    match ChangeGate lastData currentData with
    | skip => (lastData, Unchanged currentData)
    | forward =>
      match postToWavelog config currentData (http_post w) with
      | Some err => (lastData, PostFailed currentData err)
      | None => (currentData, Posted currentData)
      end
    end
  end.

(** The loop over the worlds of its successive passes, from a given
    [lastData]: the final [lastData] and the passes in order. *)
Fixpoint loop (client : RadioClient) (config : ProfileConfig)
    (lastData : RigData) (ws : list World) : RigData * list Cycle :=
  match ws with
  | [] => (lastData, [])
  | w :: ws' =>
    let (lastData', c) := cycle client config lastData w in
    let (final, cs) := loop client config lastData' ws' in
    (final, c :: cs)
  end.

(** The loop as [main] starts it: [var lastData RigData]. *)
Definition main_loop (client : RadioClient) (config : ProfileConfig)
    (ws : list World) : RigData * list Cycle :=
  loop client config RigData_zero ws.

(** The snapshot of the last successful post among some passes, or the
    given one when there is none. *)
Fixpoint last_posted (init : RigData) (cs : list Cycle) : RigData :=
  match cs with
  | [] => init
  | Posted d :: cs' => last_posted d cs'
  | _ :: cs' => last_posted init cs'
  end.

(** The snapshots some passes tried to post, in order. *)
Fixpoint attempts (cs : list Cycle) : list RigData :=
  match cs with
  | [] => []
  | Posted d :: cs' => d :: attempts cs'
  | PostFailed d _ :: cs' => d :: attempts cs'
  | _ :: cs' => attempts cs'
  end.

(** How a pass through the loop body ends: with [continue], at the end
    of the body, or by ending the process (a return, a break, a fatal
    log call or a panic). *)
Inductive Control : Type := Continue | EndOfBody | Exit.

(** The end of each branch of the body: [continue] at lines 481, 486
    and 493, the end of the body after line 497. *)
Definition cycle_control (c : Cycle) : Control :=
  match c with
  | ReadFailed _ => Continue
  | Unchanged _ => Continue
  | PostFailed _ _ => Continue
  | Posted _ => EndOfBody
  end.

(** The process in the loop, over the worlds of the passes it could
    make: it makes the next pass unless the last one ended it. *)
Fixpoint run (client : RadioClient) (config : ProfileConfig)
    (lastData : RigData) (ws : list World) : RigData * list Cycle :=
  match ws with
  | [] => (lastData, [])
  | w :: ws' =>
    let (lastData', c) := cycle client config lastData w in
    match cycle_control c with
    | Exit => (lastData', [c])
    | Continue | EndOfBody =>
      let (final, cs) := run client config lastData' ws' in
      (final, c :: cs)
    end
  end.

End Program.

(** ** A concrete library, for closed examples

    One implementation of the [GoLib] interface, on the fragment of each
    function that the examples below use: [ParseFloat] reads unsigned
    decimal integers and the text NaN, and reports any other text as a
    syntax error; [Fields] and [ToLower] treat ASCII only;
    [ParseDuration] reads whole seconds written with the unit s; [int]
    is 64 bits wide and an unrepresentable conversion yields the least
    [int], as on amd64. *)

Module Reference.

Definition digit (c : ascii) : option Z :=
  let n := Z.of_nat (nat_of_ascii c) in
  if (48 <=? n) && (n <=? 57) then Some (n - 48) else None.

Fixpoint decimal (s : string) (acc : Z) : option Z :=
  match s with
  | EmptyString => Some acc
  | String c s' =>
    match digit c with
    | Some d => decimal s' (10 * acc + d)
    | None => None
    end
  end.

Definition ParseFloat (s : string) : Float64.t * option error :=
  if String.eqb s "NaN" then (Float64.nan, None)
  else if String.eqb s "" then (Float64.zero, Some (External "invalid syntax"))
  else match decimal s 0 with
       | Some n =>
         let x := Float64.of_int n in
         if Float64.is_finite x then (x, None)
         else (x, Some (External "value out of range"))
       | None => (Float64.zero, Some (External "invalid syntax"))
       end.

Definition is_space (c : ascii) : bool :=
  let n := Z.of_nat (nat_of_ascii c) in
  ((9 <=? n) && (n <=? 13)) || (n =? 32).

Fixpoint Fields_from (word s : string) : list string :=
  match s with
  | EmptyString => if String.eqb word "" then [] else [word]
  | String c s' =>
    if is_space c then
      if String.eqb word "" then Fields_from "" s'
      else word :: Fields_from "" s'
    else Fields_from (word ++ String c EmptyString)%string s'
  end.

Definition Fields (s : string) : list string := Fields_from "" s.

Definition lower (c : ascii) : ascii :=
  let n := nat_of_ascii c in
  if ((65 <=? n) && (n <=? 90))%nat then ascii_of_nat (n + 32) else c.

Fixpoint ToLower (s : string) : string :=
  match s with
  | EmptyString => EmptyString
  | String c s' => String (lower c) (ToLower s')
  end.

Fixpoint seconds (s : string) (acc : Z) (seen : bool) : option Z :=
  match s with
  | EmptyString => None
  | String c s' =>
    match digit c with
    | Some d => seconds s' (10 * acc + d) true
    | None =>
      if seen && Ascii.eqb c "s"%char && String.eqb s' ""
      then Some (acc * 1000000000) else None
    end
  end.

Definition ParseDuration (s : string) : Z * option error :=
  match seconds s 0 false with
  | Some ns => (ns, None)
  | None => (0, Some (External "time: invalid duration"))
  end.

Definition lib : GoLib :=
  Build_GoLib ParseFloat Fields ToLower ParseDuration
              64 (or_intror eq_refl) (fun _ => - 2 ^ 63).

End Reference.

(** * Properties *)

(** ** [float64] *)

Section Float64Facts.

Import Float64.

Lemma float64_compare_finite (s1 s2 : bool) (m1 m2 : positive) (e1 e2 : Z) :
  SFcompare (S754_finite s1 m1 e1) (S754_finite s2 m2 e2) = Some Eq
  <-> s1 = s2 /\ m1 = m2 /\ e1 = e2.
Proof.
  cbn. fold (Pos.compare m1 m2).
  destruct (Z.compare_spec e1 e2) as [E|E|E],
           (Pos.compare_spec m1 m2) as [M|M|M];
    destruct s1, s2; cbn; split;
    try discriminate; try (intros (? & ? & ?); subst; discriminate || lia);
    intros _; repeat split; assumption.
Qed.

Lemma float64_eqb_finite (s1 s2 : bool) (m1 m2 : positive) (e1 e2 : Z) :
  eqb (S754_finite s1 m1 e1) (S754_finite s2 m2 e2) = true
  <-> S754_finite s1 m1 e1 = S754_finite s2 m2 e2.
Proof.
  unfold eqb, SFeqb.
  pose proof (float64_compare_finite s1 s2 m1 m2 e1 e2) as [F G].
  destruct (SFcompare (S754_finite s1 m1 e1) (S754_finite s2 m2 e2))
    as [c|] eqn:C.
  - destruct c; split; intros H; try discriminate; try reflexivity.
    + destruct (F eq_refl) as (-> & -> & ->). reflexivity.
    + injection H as -> -> ->. now specialize (G (conj eq_refl (conj eq_refl eq_refl))).
    + injection H as -> -> ->. now specialize (G (conj eq_refl (conj eq_refl eq_refl))).
  - discriminate C.
Qed.

Lemma float64_eqb_same (x y : t) : eqb x y = true <-> same x y.
Proof.
  unfold same, nan.
  destruct x as [sx|sx| |sx mx ex], y as [sy|sy| |sy my ey];
    try (rewrite float64_eqb_finite; split;
         [ intros H; left; split; [exact H | discriminate]
         | intros [[H _]|[H _]]; [exact H | discriminate] ]);
    cbn; try (destruct sx); try (destruct sy); cbn;
    split; intros H; try discriminate; try reflexivity;
    try (right; split; reflexivity);
    try (left; split; [reflexivity|discriminate]);
    destruct H as [[? ?]|[? ?]]; congruence.
Qed.

Lemma float64_eqb_refl (x : t) : is_nan x = false -> eqb x x = true.
Proof.
  intros N. apply float64_eqb_same. left. split; [reflexivity|].
  intros ->. discriminate N.
Qed.

(** [truncate] discards the fraction: the result has the sign of the
    value and the largest magnitude not above the value's. *)
Lemma truncate_finite (s : bool) (m : positive) (e : Z) :
  exists a : Z,
    truncate (S754_finite s m e) = Some (if s then - a else a)
    /\ 0 <= a
    /\ (0 <= e -> a = Z.pos m * 2 ^ e)
    /\ (e < 0 -> a * 2 ^ (- e) <= Z.pos m < (a + 1) * 2 ^ (- e)).
Proof.
  cbn. destruct (Z.leb_spec 0 e) as [E|E].
  - exists (Z.pos m * 2 ^ e).
    assert (0 <= Z.pos m * 2 ^ e)
      by (apply Z.mul_nonneg_nonneg; [lia | apply Z.pow_nonneg; lia]).
    split; [reflexivity|]. split; [assumption|]. split; [reflexivity|lia].
  - exists (Z.pos m / 2 ^ (- e)).
    assert (P : 0 < 2 ^ (- e)) by (apply Z.pow_pos_nonneg; lia).
    split; [reflexivity|]. split; [apply Z.div_pos; lia|].
    split; [lia|]. intros _. split.
    + rewrite Z.mul_comm. apply Z.mul_div_le. exact P.
    + rewrite Z.mul_comm.
      replace (Z.pos m / 2 ^ (- e) + 1) with (Z.succ (Z.pos m / 2 ^ (- e))) by lia.
      apply Z.mul_succ_div_gt. exact P.
Qed.

End Float64Facts.

(** ** The change gate *)

Definition no_nan (d : RigData) : bool :=
  negb (Float64.is_nan (FreqVFOA d))
  && negb (Float64.is_nan (FreqVFOB d))
  && negb (Float64.is_nan (Power d)).

Definition is_neg_zero (x : Float64.t) : bool :=
  match x with S754_zero true => true | _ => false end.

Definition no_neg_zero (d : RigData) : bool :=
  negb (is_neg_zero (FreqVFOA d))
  && negb (is_neg_zero (FreqVFOB d))
  && negb (is_neg_zero (Power d)).

(** Some field is not the zero of its type under [==]. *)
Definition nonzero (d : RigData) : bool :=
  negb (Float64.is_zero (FreqVFOA d))
  || negb (Float64.is_zero (FreqVFOB d))
  || negb (String.eqb (Mode d) "")
  || negb (String.eqb (ModeB d) "")
  || negb (Split d =? 0)
  || negb (Float64.is_zero (Power d)).

Lemma RigData_eqb_same (x y : RigData) :
  RigData_eqb x y = true
  <-> Float64.same (FreqVFOA x) (FreqVFOA y)
      /\ Float64.same (FreqVFOB x) (FreqVFOB y)
      /\ Mode x = Mode y
      /\ ModeB x = ModeB y
      /\ Split x = Split y
      /\ Float64.same (Power x) (Power y).
Proof.
  unfold RigData_eqb.
  rewrite !Bool.andb_true_iff, !float64_eqb_same, !String.eqb_eq, Z.eqb_eq.
  tauto.
Qed.

Lemma RigData_eqb_refl (d : RigData) : no_nan d = true -> RigData_eqb d d = true.
Proof.
  unfold no_nan. rewrite !Bool.andb_true_iff, !Bool.negb_true_iff.
  intros [[A B] P]. unfold RigData_eqb.
  rewrite !float64_eqb_refl, !String.eqb_refl, Z.eqb_refl by assumption.
  reflexivity.
Qed.

Lemma float64_same_eq (x y : Float64.t) :
  Float64.same x y -> is_neg_zero x = false -> is_neg_zero y = false -> x = y.
Proof.
  intros [[E _]|[Zx Zy]] Nx Ny; [exact E|].
  destruct x as [[|]| | |], y as [[|]| | |]; cbn in *; congruence.
Qed.

Lemma float64_eqb_zero (x : Float64.t) : Float64.eqb x Float64.zero = Float64.is_zero x.
Proof. destruct x as [s|s| |s m e]; try destruct s; reflexivity. Qed.

Lemma RigData_eqb_zero (d : RigData) : RigData_eqb d RigData_zero = negb (nonzero d).
Proof.
  unfold RigData_eqb, nonzero, RigData_zero; cbn.
  rewrite !float64_eqb_zero, !Bool.negb_orb, !Bool.negb_involutive. reflexivity.
Qed.

(** The gate in terms of the fields, for all snapshots: it skips exactly
    when every field has the same value under Go's [==]. *)
Lemma ChangeGate_skip_iff (lastData currentData : RigData) :
  ChangeGate lastData currentData = skip
  <-> Float64.same (FreqVFOA currentData) (FreqVFOA lastData)
      /\ Float64.same (FreqVFOB currentData) (FreqVFOB lastData)
      /\ Mode currentData = Mode lastData
      /\ ModeB currentData = ModeB lastData
      /\ Split currentData = Split lastData
      /\ Float64.same (Power currentData) (Power lastData).
Proof.
  rewrite <- RigData_eqb_same. unfold ChangeGate.
  destruct (RigData_eqb currentData lastData); split; congruence.
Qed.

(** C1 (as amended): between snapshots whose float fields hold neither
    NaN nor the negative zero, the gate forwards the newly read snapshot
    if and only if it is not structurally equal, field for field, to the
    last forwarded one; so comparing such a snapshot with itself skips,
    and two such snapshots that differ in a field forward. *)
Theorem ChangeGate_forward_iff_differs (lastData currentData : RigData) :
  no_nan currentData = true ->
  no_neg_zero lastData = true ->
  no_neg_zero currentData = true ->
  (ChangeGate lastData currentData = forward <-> currentData <> lastData).
Proof.
  intros N ZL ZC. unfold ChangeGate.
  destruct (RigData_eqb currentData lastData) eqn:E.
  - split; [discriminate|]. intros NE. exfalso. apply NE.
    apply RigData_eqb_same in E. destruct E as (A & B & M & MB & S & P).
    unfold no_neg_zero in ZL, ZC.
    rewrite !Bool.andb_true_iff, !Bool.negb_true_iff in ZL, ZC.
    destruct ZL as [[LA LB] LP], ZC as [[CA CB] CP].
    apply float64_same_eq in A; [|assumption..].
    apply float64_same_eq in B; [|assumption..].
    apply float64_same_eq in P; [|assumption..].
    destruct currentData, lastData; cbn in *; congruence.
  - split; [|reflexivity]. intros _ ->.
    rewrite RigData_eqb_refl in E by assumption. discriminate.
Qed.

Definition nan_snapshot : RigData :=
  {| FreqVFOA := Float64.nan; FreqVFOB := Float64.nan;
     Mode := "USB"; ModeB := "USB"; Split := 0; Power := Float64.of_int 100 |}.

Definition snapshot_14074 (power : Float64.t) : RigData :=
  {| FreqVFOA := Float64.of_int 14074000; FreqVFOB := Float64.of_int 14074000;
     Mode := "USB"; ModeB := "USB"; Split := 0; Power := power |}.

(** C1 as stated fails: a snapshot with a NaN frequency (the reading of
    the text NaN) compared with itself is forwarded, and two snapshots
    that differ in the sign of a zero power are not. *)
Lemma ChangeGate_nan_and_zero_sign :
  ChangeGate nan_snapshot nan_snapshot = forward
  /\ snapshot_14074 Float64.neg_zero <> snapshot_14074 Float64.zero
  /\ ChangeGate (snapshot_14074 Float64.zero) (snapshot_14074 Float64.neg_zero) = skip.
Proof. split; [reflexivity|]. split; [discriminate|reflexivity]. Qed.

Lemma ChangeGate_forward_iff_differs_witness :
  ChangeGate (snapshot_14074 Float64.zero) (snapshot_14074 (Float64.of_int 5)) = forward
  <-> snapshot_14074 (Float64.of_int 5) <> snapshot_14074 Float64.zero.
Proof.
  apply (ChangeGate_forward_iff_differs
           (snapshot_14074 Float64.zero) (snapshot_14074 (Float64.of_int 5)));
    reflexivity.
Defined.

(** ** The poll loop *)

Section Forwarded.

Context `{GoLib}.
Variables (client : RadioClient) (config : ProfileConfig).

(** A snapshot is successfully forwarded in a world, in the spec's
    words: the HTTP POST of its body is answered with status 200. *)
Definition delivered (d : RigData) (w : World) : bool :=
  match Marshal (buildPayload config d) with
  | Ok body =>
    match http_post w (WavelogURL config ++ "/api/radio")%string body with
    | Response StatusCode _ => StatusCode =? 200
    | NewRequestFailed _ | DoFailed _ => false
    end
  | Failed _ => false
  end.

(** The snapshot a pass successfully forwards, if any: the one it reads
    without error, when it differs from the baseline under [==] and is
    delivered. *)
Definition forwarded (baseline : RigData) (w : World) : option RigData :=
  match GetData client w with
  | (d, None) =>
    if negb (RigData_eqb d baseline) && delivered d w then Some d else None
  | (_, Some _) => None
  end.

(** The most recently successfully forwarded snapshot over some passes,
    or the initial value when none has succeeded. *)
Fixpoint last_forwarded (baseline : RigData) (ws : list World) : RigData :=
  match ws with
  | [] => baseline
  | w :: ws' =>
    match forwarded baseline w with
    | Some d => last_forwarded d ws'
    | None => last_forwarded baseline ws'
    end
  end.

End Forwarded.

Section PollLoop.

Context `{GoLib}.
Variables (client : RadioClient) (config : ProfileConfig).

Lemma postToWavelog_delivered (d : RigData) (w : World) :
  postToWavelog config d (http_post w) = None <-> delivered config d w = true.
Proof.
  unfold postToWavelog, delivered.
  destruct (Marshal (buildPayload config d)) as [body|e]; [|split; discriminate].
  cbv zeta.
  destruct (http_post w (WavelogURL config ++ "/api/radio")%string body)
    as [e|e|code resp]; try (split; discriminate).
  destruct (code =? 200); cbn; split; congruence.
Qed.

Lemma postToWavelog_not_delivered (d : RigData) (w : World) :
  delivered config d w = false ->
  exists err, postToWavelog config d (http_post w) = Some err.
Proof.
  intros D. destruct (postToWavelog config d (http_post w)) as [err|] eqn:P;
    [eauto|]. apply postToWavelog_delivered in P. congruence.
Qed.

Lemma cycle_forwarded (lastData : RigData) (w : World) :
  fst (cycle client config lastData w)
  = match forwarded client config lastData w with
    | Some d => d
    | None => lastData
    end.
Proof.
  unfold cycle, forwarded, ChangeGate.
  destruct (GetData client w) as [d [err|]]; [reflexivity|].
  destruct (RigData_eqb d lastData); cbn [negb andb]; [reflexivity|].
  destruct (delivered config d w) eqn:D.
  - apply postToWavelog_delivered in D. rewrite D. reflexivity.
  - destruct (postToWavelog_not_delivered d w D) as [err ->]. reflexivity.
Qed.

Lemma loop_last_forwarded (ws : list World) :
  forall lastData : RigData,
    fst (loop client config lastData ws) = last_forwarded client config lastData ws.
Proof.
  induction ws as [|w ws IH]; intros lastData; [reflexivity|].
  cbn [loop last_forwarded].
  pose proof (cycle_forwarded lastData w) as C.
  destruct (cycle client config lastData w) as [lastData' c]. cbn [fst] in C.
  specialize (IH lastData').
  destruct (loop client config lastData' ws) as [final cs]. cbn [fst] in *.
  rewrite IH, C. destruct (forwarded client config lastData w); reflexivity.
Qed.

(** A pass changes [lastData] only by a successful post, and then to
    the snapshot posted. *)
Lemma cycle_lastData (lastData : RigData) (w : World) :
  fst (cycle client config lastData w)
  = match snd (cycle client config lastData w) with
    | Posted d => d
    | _ => lastData
    end.
Proof.
  unfold cycle.
  destruct (GetData client w) as [currentData [err|]]; [reflexivity|].
  destruct (ChangeGate lastData currentData); [|reflexivity].
  destruct (postToWavelog config currentData (http_post w)); reflexivity.
Qed.

Lemma loop_last_posted (ws : list World) :
  forall lastData : RigData,
    fst (loop client config lastData ws)
    = last_posted lastData (snd (loop client config lastData ws)).
Proof.
  induction ws as [|w ws IH]; intros lastData; [reflexivity|].
  cbn [loop].
  pose proof (cycle_lastData lastData w) as C.
  destruct (cycle client config lastData w) as [lastData' c].
  specialize (IH lastData').
  destruct (loop client config lastData' ws) as [final cs].
  cbn in *. rewrite IH, C. destruct c; reflexivity.
Qed.


(** A pass that tried to post a snapshot had read it and found it
    changed. *)
Lemma cycle_PostFailed (lastData : RigData) (w : World) (d : RigData) (err : error) :
  snd (cycle client config lastData w) = PostFailed d err ->
  fst (cycle client config lastData w) = lastData
  /\ ChangeGate lastData d = forward.
Proof.
  unfold cycle.
  destruct (GetData client w) as [currentData [e|]]; [discriminate|].
  destruct (ChangeGate lastData currentData) eqn:G; [|discriminate].
  destruct (postToWavelog config currentData (http_post w)); [|discriminate].
  cbn. intros [= <- _]. split; [reflexivity|assumption].
Qed.

(** C4: the baseline [lastData] changes only when a forward succeeds,
    that is when the POST is answered 200.  After any number of passes
    of the loop of [main] it is the most recently successfully forwarded
    snapshot, or the initial value when no forward has succeeded (and so
    is the snapshot of the last pass marked as posted).  A pass that
    reads a changed snapshot and has it delivered takes it as the
    baseline; one whose forward fails leaves the baseline as it was, and
    a following pass that reads the same snapshot attempts the forward
    again and, if that one is delivered, takes the snapshot as the
    baseline. *)
Theorem lastData_is_last_posted :
  (forall ws : list World,
      fst (main_loop client config ws)
      = last_forwarded client config RigData_zero ws
      /\ fst (main_loop client config ws)
         = last_posted RigData_zero (snd (main_loop client config ws)))
  /\ (forall (lastData : RigData) (w : World) (d : RigData),
         GetData client w = (d, None) ->
         RigData_eqb d lastData = false ->
         delivered config d w = true ->
         cycle client config lastData w = (d, Posted d))
  /\ (forall (lastData : RigData) (w : World) (d : RigData),
         GetData client w = (d, None) ->
         RigData_eqb d lastData = false ->
         delivered config d w = false ->
         (exists err, cycle client config lastData w = (lastData, PostFailed d err))
         /\ forall w' : World,
             GetData client w' = (d, None) ->
             attempts [snd (cycle client config
                              (fst (cycle client config lastData w)) w')] = [d]
             /\ (delivered config d w' = true ->
                 fst (cycle client config (fst (cycle client config lastData w)) w')
                 = d)).
Proof.
  split; [|split].
  - intros ws. split; [apply loop_last_forwarded | apply loop_last_posted].
  - intros lastData w d R E D. unfold cycle, ChangeGate. rewrite R, E.
    apply postToWavelog_delivered in D. rewrite D. reflexivity.
  - intros lastData w d R E D.
    destruct (postToWavelog_not_delivered d w D) as [err P].
    assert (C : cycle client config lastData w = (lastData, PostFailed d err))
      by (unfold cycle, ChangeGate; rewrite R, E, P; reflexivity).
    split; [eauto|]. intros w' R'. rewrite C. cbn [fst].
    unfold cycle, ChangeGate. rewrite R', E. split.
    + destruct (postToWavelog config d (http_post w')); reflexivity.
    + intros D'. apply postToWavelog_delivered in D'. rewrite D'. reflexivity.
Qed.

(** C6 (as amended): [lastData] starts as the zero value of [RigData],
    so the first pass forwards the snapshot it has read exactly when
    some field of it is not the zero of its type under [==]. *)
Theorem first_cycle_forwards_nonzero (w : World) (d : RigData) :
  GetData client w = (d, None) ->
  attempts (snd (main_loop client config [w])) = if nonzero d then [d] else [].
Proof.
  intros R. unfold main_loop. cbn [loop]. unfold cycle, ChangeGate.
  rewrite R, RigData_eqb_zero.
  destruct (nonzero d); cbn; [|reflexivity].
  destruct (postToWavelog config d (http_post w)); reflexivity.
Qed.

End PollLoop.

(** ** The two readers *)

(** A snapshot with its power replaced. *)
Definition with_Power (d : RigData) (power : Float64.t) : RigData :=
  {| FreqVFOA := FreqVFOA d; FreqVFOB := FreqVFOB d; Mode := Mode d;
     ModeB := ModeB d; Split := Split d; Power := power |}.

Section Readers.

Context `{GoLib}.

(** *** Mandatory reads *)

(** A mandatory read of flrig fails: the call for the VFO-A frequency,
    the parse of its reply, or the call for the mode. *)
Definition flrig_mandatory_failure (srv : XmlRpcServer) : Prop :=
  (exists err, Call_string srv "rig.get_vfo" = Failed err)
  \/ (exists vfoA x err,
         Call_string srv "rig.get_vfo" = Ok vfoA /\ ParseFloat vfoA = (x, Some err))
  \/ (exists err, Call_string srv "rig.get_mode" = Failed err).

(** A mandatory read of rigctld fails: sending f or m, reading either
    reply, the parse of the frequency, or a mode reply with no field. *)
Definition hamlib_mandatory_failure (d : Rigctld) : Prop :=
  (exists err, Fprintf d ("f" ++ newline) = Some err)
  \/ (exists err, ReadLine d 0%nat = Failed err)
  \/ (exists freqStr x err,
         ReadLine d 0%nat = Ok freqStr /\ ParseFloat freqStr = (x, Some err))
  \/ (exists err, Fprintf d ("m" ++ newline) = Some err)
  \/ (exists err, ReadLine d 1%nat = Failed err)
  \/ (exists modeResp, ReadLine d 1%nat = Ok modeResp /\ Fields modeResp = []).

Definition mandatory_failure (client : RadioClient) (w : World) : Prop :=
  match client with
  | FlrigClient Host Port => flrig_mandatory_failure (flrig_at w Host Port)
  | HamlibClient Host Port => hamlib_mandatory_failure (rigctld_at w Host Port)
  end.

Lemma FlrigClient_mandatory (srv : XmlRpcServer) :
  flrig_mandatory_failure srv ->
  exists err, FlrigClient_GetData srv = (RigData_zero, Some err).
Proof.
  unfold flrig_mandatory_failure, FlrigClient_GetData. intros F.
  destruct (NewClient srv) as [e0|]; [eauto|].
  destruct (Call_string srv "rig.get_vfo") as [vfoA|e1]; [|eauto].
  destruct (ParseFloat vfoA) as [freqA [e2|]] eqn:P; [eauto|].
  destruct (Call_string srv "rig.get_mode") as [mode|e3]; [|eauto].
  exfalso.
  destruct F as [[e E]|[(v & x & e & E1 & E2)|[e E]]]; try discriminate.
  injection E1 as <-. congruence.
Qed.

Lemma HamlibClient_mandatory (d : Rigctld) :
  hamlib_mandatory_failure d ->
  exists err, HamlibClient_GetData d = (RigData_zero, Some err).
Proof.
  unfold hamlib_mandatory_failure, HamlibClient_GetData. intros F.
  destruct (Dial d) as [e0|]; [eauto|].
  destruct (Fprintf d ("f" ++ newline)) as [e1|]; [eauto|].
  destruct (ReadLine d 0%nat) as [freqStr|e2]; [|eauto].
  destruct (ParseFloat freqStr) as [freqA [e3|]] eqn:P; [eauto|].
  destruct (Fprintf d ("m" ++ newline)) as [e4|]; [eauto|].
  destruct (ReadLine d 1%nat) as [modeResp|e5]; [|eauto].
  destruct (Fields modeResp) as [|mode rest] eqn:Fs; [eauto|].
  exfalso.
  destruct F as [[e E]|[[e E]|[(v & x & e & E1 & E2)|[[e E]|[[e E]|(m & E1 & E2)]]]]];
    try discriminate.
  - injection E1 as <-. congruence.
  - injection E1 as <-. congruence.
Qed.

(** C7: in both variants a failure of a mandatory read (the retrieval
    of the VFO-A frequency, its parse, or the retrieval of the mode)
    makes [GetData] return an error together with the zero [RigData]
    and no snapshot; the loop then leaves that pass without using it. *)
Theorem mandatory_failure_aborts_read (client : RadioClient) (w : World) :
  mandatory_failure client w ->
  exists err : error,
    GetData client w = (RigData_zero, Some err)
    /\ forall (config : ProfileConfig) (lastData : RigData),
        cycle client config lastData w = (lastData, ReadFailed err).
Proof.
  intros F.
  assert (E : exists err, GetData client w = (RigData_zero, Some err)).
  { destruct client as [Host Port|Host Port]; cbn in *.
    - apply FlrigClient_mandatory. exact F.
    - apply HamlibClient_mandatory. exact F. }
  destruct E as [err E]. exists err. split; [exact E|].
  intros config lastData. unfold cycle. rewrite E. reflexivity.
Qed.

(** *** The power read *)

Definition flrig_power_failure (srv : XmlRpcServer) : Prop :=
  exists err, Call_int srv "rig.get_power" = Failed err.

Definition hamlib_power_failure (d : Rigctld) : Prop :=
  (exists err, Fprintf d ("P" ++ newline) = Some err)
  \/ (exists err, ReadLine d 2%nat = Failed err)
  \/ (exists powerStr x err,
         ReadLine d 2%nat = Ok powerStr /\ ParseFloat powerStr = (x, Some err)).

Definition power_failure (client : RadioClient) (w : World) : Prop :=
  match client with
  | FlrigClient Host Port => flrig_power_failure (flrig_at w Host Port)
  | HamlibClient Host Port => hamlib_power_failure (rigctld_at w Host Port)
  end.

(** Two daemons that answer alike to everything but the power query. *)
Definition flrig_same_but_power (srv srv' : XmlRpcServer) : Prop :=
  NewClient srv = NewClient srv'
  /\ (forall method, Call_string srv method = Call_string srv' method)
  /\ Call_int srv "rig.get_split" = Call_int srv' "rig.get_split".

Definition hamlib_same_but_power (d d' : Rigctld) : Prop :=
  Dial d = Dial d'
  /\ Fprintf d ("f" ++ newline) = Fprintf d' ("f" ++ newline)
  /\ Fprintf d ("m" ++ newline) = Fprintf d' ("m" ++ newline)
  /\ ReadLine d 0%nat = ReadLine d' 0%nat
  /\ ReadLine d 1%nat = ReadLine d' 1%nat.

Definition same_but_power (client : RadioClient) (w w' : World) : Prop :=
  match client with
  | FlrigClient Host Port =>
      flrig_same_but_power (flrig_at w Host Port) (flrig_at w' Host Port)
  | HamlibClient Host Port =>
      hamlib_same_but_power (rigctld_at w Host Port) (rigctld_at w' Host Port)
  end.

(** The outcome of a read with the power of its snapshot, if it has
    one, set to 0. *)
Definition zero_power (r : RigData * option error) : RigData * option error :=
  match r with
  | (d, None) => (with_Power d Float64.zero, None)
  | failure => failure
  end.

Lemma hamlib_power_zero (d : Rigctld) :
  hamlib_power_failure d -> hamlib_power d = Float64.zero.
Proof.
  unfold hamlib_power_failure, hamlib_power. intros F.
  destruct (Fprintf d ("P" ++ newline)) as [e0|]; [reflexivity|].
  destruct (ReadLine d 2%nat) as [powerStr|e1]; [|reflexivity].
  destruct (ParseFloat powerStr) as [x [e2|]] eqn:P; [reflexivity|].
  exfalso. destruct F as [[e E]|[[e E]|(s & y & e & E1 & E2)]]; try discriminate.
  injection E1 as <-. congruence.
Qed.

Lemma FlrigClient_power (srv srv' : XmlRpcServer) :
  flrig_power_failure srv -> flrig_same_but_power srv srv' ->
  FlrigClient_GetData srv = zero_power (FlrigClient_GetData srv').
Proof.
  intros [err F] (N & S & I). unfold FlrigClient_GetData.
  rewrite F, <- N, <- I, <- !S.
  destruct (NewClient srv) as [e0|]; [reflexivity|].
  destruct (Call_string srv "rig.get_vfo") as [vfoA|e1]; [|reflexivity].
  destruct (ParseFloat vfoA) as [freqA [e2|]]; [reflexivity|].
  destruct (Call_string srv "rig.get_mode") as [mode|e3]; [|reflexivity].
  cbv zeta.
  destruct (ParseFloat _) as [freqB [e4|]]; reflexivity.
Qed.

Lemma HamlibClient_power (d d' : Rigctld) :
  hamlib_power_failure d -> hamlib_same_but_power d d' ->
  HamlibClient_GetData d = zero_power (HamlibClient_GetData d').
Proof.
  intros F (D & Ff & Fm & R0 & R1). unfold HamlibClient_GetData.
  rewrite (hamlib_power_zero d F), <- D, <- Ff, <- Fm, <- R0, <- R1.
  destruct (Dial d) as [e0|]; [reflexivity|].
  destruct (Fprintf d ("f" ++ newline)) as [e1|]; [reflexivity|].
  destruct (ReadLine d 0%nat) as [freqStr|e2]; [|reflexivity].
  destruct (ParseFloat freqStr) as [freqA [e3|]]; [reflexivity|].
  destruct (Fprintf d ("m" ++ newline)) as [e4|]; [reflexivity|].
  destruct (ReadLine d 1%nat) as [modeResp|e5]; [|reflexivity].
  destruct (Fields modeResp) as [|mode rest]; reflexivity.
Qed.

(** C8: in both variants a failure of the power read (the call, the
    write or read on the connection, or the parse) is tolerated: the
    read ends as it does in any world that differs only in its answer
    to the power query, a snapshot coming with power 0. *)
Theorem power_failure_tolerated (client : RadioClient) (w w' : World) :
  power_failure client w ->
  same_but_power client w w' ->
  GetData client w = zero_power (GetData client w').
Proof.
  destruct client as [Host Port|Host Port]; cbn.
  - apply FlrigClient_power.
  - apply HamlibClient_power.
Qed.

End Readers.

(** *** The secondary VFO of flrig *)

Section SecondaryVFO.

Context `{GoLib}.

(** C5 (as amended): with the mandatory reads of flrig done, the two
    calls for VFO-B are tolerated.  When the call for the VFO-B frequency
    fails the read succeeds, going on with the text of VFO-A so that
    freqB equals freqA; when it answers with a text that parses the read
    succeeds with that frequency; in both cases modeB is the answer of
    the call for the VFO-B mode, or modeA when that call fails.  But a
    VFO-B frequency text that arrives and does not parse fails the whole
    read. *)
Theorem vfoB_call_failures_mirror_vfoA
    (srv : XmlRpcServer) (vfoA : string) (freqA : Float64.t) (mode : string) :
  NewClient srv = None ->
  Call_string srv "rig.get_vfo" = Ok vfoA ->
  ParseFloat vfoA = (freqA, None) ->
  Call_string srv "rig.get_mode" = Ok mode ->
  let modeB := match Call_string srv "rig.get_modeB" with
               | Ok m => m
               | Failed _ => mode
               end in
  ((exists err, Call_string srv "rig.get_vfoB" = Failed err) ->
   exists d, FlrigClient_GetData srv = (d, None)
             /\ FreqVFOA d = freqA /\ FreqVFOB d = freqA
             /\ Mode d = mode /\ ModeB d = modeB)
  /\ (forall vfoB freqB,
         Call_string srv "rig.get_vfoB" = Ok vfoB ->
         ParseFloat vfoB = (freqB, None) ->
         exists d, FlrigClient_GetData srv = (d, None)
                   /\ FreqVFOA d = freqA /\ FreqVFOB d = freqB
                   /\ Mode d = mode /\ ModeB d = modeB)
  /\ (forall vfoB x err,
         Call_string srv "rig.get_vfoB" = Ok vfoB ->
         ParseFloat vfoB = (x, Some err) ->
         FlrigClient_GetData srv = (RigData_zero, Some err)).
Proof.
  intros N V P M. unfold FlrigClient_GetData. rewrite N, V, P, M. cbv zeta.
  split; [|split].
  - intros [err B]. rewrite B, P. eexists. split; [reflexivity|]. cbn.
    repeat split.
  - intros vfoB freqB B PB. rewrite B, PB. eexists. split; [reflexivity|]. cbn.
    repeat split.
  - intros vfoB x err B PB. rewrite B, PB. reflexivity.
Qed.

End SecondaryVFO.

(** ** The forwarder *)

Section Forwarder.

Context `{GoLib}.

Lemma fits_int_0 : fits_int 0 = true.
Proof.
  unfold fits_int. destruct intSize_32_or_64 as [-> | ->]; reflexivity.
Qed.

(** Within the range of [int], [int(x)] is the truncation of [x]. *)
Lemma float64_to_int_truncate (x : Float64.t) (z : Z) :
  Float64.truncate x = Some z -> fits_int z = true -> float64_to_int x = z.
Proof. unfold float64_to_int. intros -> ->. reflexivity. Qed.

(** A string that is well-formed UTF-8 is written as it is. *)
Lemma coerceUTF8_valid (s : string) : ValidString s = true -> coerceUTF8 s = s.
Proof.
  assert (G : forall n s, (String.length s <= n)%nat ->
                          ValidString s = true -> coerceUTF8 s = s).
  { induction n as [|n IH]; intros [|b0 s1] L V; try reflexivity;
      cbn [String.length] in L; [lia|].
    cbn [ValidString coerceUTF8] in *.
    destruct (byte_value b0 <? 128); [rewrite (IH s1) by (assumption || lia); reflexivity|].
    destruct s1 as [|b1 s2]; [discriminate|]. cbn [String.length] in L.
    destruct (rune2 b0 b1); [rewrite (IH s2) by (assumption || lia); reflexivity|].
    destruct s2 as [|b2 s3]; [discriminate|]. cbn [String.length] in L.
    destruct (rune3 b0 b1 b2); [rewrite (IH s3) by (assumption || lia); reflexivity|].
    destruct s3 as [|b3 s4]; [discriminate|]. cbn [String.length] in L.
    destruct (rune4 b0 b1 b2 b3); [|discriminate].
    rewrite (IH s4) by (assumption || lia). reflexivity. }
  apply (G (String.length s)). lia.
Qed.

Lemma Marshal_Ok (payload : WavelogJSONRequest) (body : JSONObject) :
  Marshal payload = Ok body ->
  body = ([ ("key", JString (coerceUTF8 (Key payload)));
            ("radio", JString (coerceUTF8 (Radio payload)));
            ("power", JFloat (payload_Power payload));
            ("frequency", JInt (Frequency payload));
            ("mode", JString (coerceUTF8 (payload_Mode payload))) ]
          ++ (if FrequencyRX payload =? 0 then []
              else [("frequency_rx", JInt (FrequencyRX payload))])
          ++ (if String.eqb (ModeRX payload) "" then []
              else [("mode_rx", JString (coerceUTF8 (ModeRX payload)))]))%list.
Proof.
  unfold Marshal. destruct (Float64.is_finite _); [|discriminate].
  intros [= <-]. reflexivity.
Qed.

(** The snapshot with split off whose VFO-A is the VFO-B of a given
    one. *)
Definition split_off (data : RigData) : RigData :=
  {| FreqVFOA := FreqVFOB data; FreqVFOB := FreqVFOB data;
     Mode := ModeB data; ModeB := ModeB data; Split := 0; Power := Power data |}.

(** C2 (as amended): in every body the forwarder produces, key, radio
    and the power as read are present.  With split off, mode is modeA,
    frequency is freqA truncated to whole Hz, and frequency_rx and
    mode_rx are absent.  With split on, mode is modeB and frequency is
    freqB truncated; frequency_rx is freqA truncated when that is not
    0 and absent when it is 0; mode_rx is modeA when that is not empty
    and absent when it is.  Truncated frequencies are those that fit
    in an [int]; key, radio and the modes are written as JSON strings,
    which replaces every byte that is not well-formed UTF-8 by U+FFFD
    and leaves well-formed text as it is ([coerceUTF8_valid]). *)
Theorem body_mapping (config : ProfileConfig) (data : RigData) (body : JSONObject) :
  Marshal (buildPayload config data) = Ok body ->
  member "key" body = Some (JString (coerceUTF8 (WavelogKey config)))
  /\ member "radio" body = Some (JString (coerceUTF8 (RadioName config)))
  /\ member "power" body = Some (JFloat (Power data))
  /\ (Split data = 0 ->
      member "mode" body = Some (JString (coerceUTF8 (Mode data)))
      /\ member "frequency_rx" body = None
      /\ member "mode_rx" body = None
      /\ forall a, Float64.truncate (FreqVFOA data) = Some a -> fits_int a = true ->
                   member "frequency" body = Some (JInt a))
  /\ (Split data <> 0 ->
      member "mode" body = Some (JString (coerceUTF8 (ModeB data)))
      /\ member "mode_rx" body
         = (if String.eqb (Mode data) "" then None
            else Some (JString (coerceUTF8 (Mode data))))
      /\ (forall b, Float64.truncate (FreqVFOB data) = Some b -> fits_int b = true ->
                    member "frequency" body = Some (JInt b))
      /\ (forall a, Float64.truncate (FreqVFOA data) = Some a -> fits_int a = true ->
                    member "frequency_rx" body
                    = if a =? 0 then None else Some (JInt a))).
Proof.
  intros Mb. apply Marshal_Ok in Mb. subst body. unfold buildPayload.
  destruct (Z.eqb_spec (Split data) 0) as [S|S]; cbn [negb].
  - cbn. repeat split; try congruence.
    intros a T F. rewrite (float64_to_int_truncate _ _ T F). reflexivity.
  - cbn [Key Radio payload_Power Frequency payload_Mode FrequencyRX ModeRX].
    split; [reflexivity|]. split; [reflexivity|]. split; [reflexivity|].
    split; [congruence|]. intros _.
    split; [reflexivity|]. split; [|split].
    + destruct (float64_to_int (FreqVFOA data) =? 0);
        destruct (String.eqb (Mode data) ""); reflexivity.
    + intros b T F. rewrite (float64_to_int_truncate _ _ T F). reflexivity.
    + intros a T F. rewrite (float64_to_int_truncate _ _ T F).
      destruct (a =? 0); destruct (String.eqb (Mode data) ""); reflexivity.
Qed.

(** C10: frequency_rx and mode_rx are written with omit-when-zero
    semantics.  With split on, a receive frequency that truncates to
    0 Hz leaves the body without a frequency_rx member and an empty
    receive mode leaves it without a mode_rx member; with both, the body
    is the one of the snapshot with split off. *)
Theorem omitempty_hides_receive_side
    (config : ProfileConfig) (data : RigData) (body : JSONObject) :
  Split data <> 0 ->
  Marshal (buildPayload config data) = Ok body ->
  (Float64.truncate (FreqVFOA data) = Some 0 -> member "frequency_rx" body = None)
  /\ (Mode data = "" -> member "mode_rx" body = None)
  /\ (Float64.truncate (FreqVFOA data) = Some 0 -> Mode data = "" ->
      Marshal (buildPayload config (split_off data)) = Ok body).
Proof.
  intros S Mb.
  assert (Z0 : Float64.truncate (FreqVFOA data) = Some 0 ->
               float64_to_int (FreqVFOA data) = 0)
    by (intros T; apply (float64_to_int_truncate _ _ T fits_int_0)).
  assert (Fin : Float64.is_finite (Power data) = true).
  { unfold Marshal, buildPayload in Mb.
    destruct (negb (Split data =? 0)); cbn in Mb;
      destruct (Float64.is_finite (Power data)); congruence. }
  apply Marshal_Ok in Mb. subst body. unfold buildPayload.
  destruct (Z.eqb_spec (Split data) 0) as [S0|_]; [contradiction|].
  cbn [negb Key Radio payload_Power Frequency payload_Mode FrequencyRX ModeRX].
  split; [|split].
  - intros T. rewrite (Z0 T). cbn.
    destruct (String.eqb (Mode data) ""); reflexivity.
  - intros ->. cbn.
    destruct (float64_to_int (FreqVFOA data) =? 0); reflexivity.
  - intros T ->. rewrite (Z0 T). unfold Marshal. cbn. rewrite Fin. reflexivity.
Qed.

End Forwarder.

(** ** Configuration *)

(** The three layers in the spec's words: an override, when supplied,
    supersedes the stored value, which, when there is a stored record,
    supersedes the default. *)
Definition layered {A : Type} (override stored : option A) (default : A) : A :=
  match override with
  | Some v => v
  | None => match stored with
            | Some v => v
            | None => default
            end
  end.

(** The profile selected, in the spec's words: the explicit profile name
    override, else the store's recorded default profile name, else a
    fixed fallback name. *)
Definition selected_name (override recorded : string) : string :=
  if negb (String.eqb override "") then override
  else if negb (String.eqb recorded "") then recorded
  else "default".

(** The members a profile object of the configuration file has, by
    setting: [None] for a setting the object has no member for. *)
Record ProfileMembers : Type := {
  json_wavelog_url : option string;
  json_wavelog_key : option string;
  json_radio_name : option string;
  json_flrig_host : option string;
  json_flrig_port : option Z;
  json_hamlib_host : option string;
  json_hamlib_port : option Z;
  json_interval : option string;
  json_data_source : option string;
  json_log_level : option string
}.

(** [json.Unmarshal] (line 113) on one profile object: it fills a fresh
    [ProfileConfig], a member setting its field and a setting without
    member keeping the zero value of its type. *)
Definition Unmarshal_ProfileConfig (o : ProfileMembers) : ProfileConfig :=
  {| WavelogURL := default "" (json_wavelog_url o);
     WavelogKey := default "" (json_wavelog_key o);
     RadioName := default "" (json_radio_name o);
     FlrigHost := default "" (json_flrig_host o);
     FlrigPort := default 0 (json_flrig_port o);
     HamlibHost := default "" (json_hamlib_host o);
     HamlibPort := default 0 (json_hamlib_port o);
     Interval := default "" (json_interval o);
     DataSource := default "" (json_data_source o);
     LogLevel := default "" (json_log_level o) |}.

(** The override a flag supplies: its value when the flag was given. *)
Definition supplied {A : Type} (cl : CommandLine) (flag : string) (value : A) : option A :=
  if given cl flag then Some value else None.

Section Configuration.

Context `{GoLib}.

Lemma fold_visit_field {A : Type} (cl : CommandLine)
    (field : ProfileConfig -> A) (flag : string) (value : A) :
  (forall c name,
      field (visit cl c name) = if String.eqb name flag then value else field c) ->
  forall (names : list string) (c : ProfileConfig),
    field (fold_left (visit cl) names c)
    = if existsb (String.eqb flag) names then value else field c.
Proof.
  intros step. induction names as [|name names IH]; intros c; [reflexivity|].
  cbn [fold_left existsb]. rewrite IH, step, (String.eqb_sym flag name).
  destruct (String.eqb name flag), (existsb (String.eqb flag) names); reflexivity.
Qed.

Ltac visit_cases name :=
  unfold visit;
  repeat match goal with
         | |- context [String.eqb name ?s] =>
             destruct (String.eqb_spec name s); [subst name; reflexivity|]
         end;
  reflexivity.

Lemma merged_field {A : Type} (cfgFile : ConfigFile) (cl : CommandLine)
    (field : ProfileConfig -> A) (flag : string) (value : A) :
  (forall c name,
      field (visit cl c name) = if String.eqb name flag then value else field c) ->
  field (currentProfileConfig cfgFile cl)
  = layered (supplied cl flag value)
            (field <$> lookup_profile cfgFile (profileToUse cfgFile cl))
            (field defaultConfig).
Proof.
  intros step. unfold currentProfileConfig, supplied, given, layered.
  rewrite (fold_visit_field cl field flag value step).
  destruct (existsb (String.eqb flag) (setFlags cl)); [reflexivity|].
  unfold profileConfig.
  destruct (lookup_profile cfgFile (profileToUse cfgFile cl)); reflexivity.
Qed.

Lemma profileToUse_selected (cfgFile : ConfigFile) (cl : CommandLine) :
  profileToUse cfgFile cl
  = selected_name (currentProfileName cl) (DefaultProfile cfgFile).
Proof.
  unfold profileToUse, selected_name.
  destruct (String.eqb_spec (currentProfileName cl) "") as [E|N]; cbn [negb].
  - destruct (String.eqb (DefaultProfile cfgFile) ""); reflexivity.
  - apply String.eqb_neq in N. rewrite N. reflexivity.
Qed.

(** C3 (as amended): the effective configuration is three layers, the
    later over the earlier.  The profile is selected by the profile flag
    when it is not empty, else by the default name of the file when that
    is not empty, else by the name default.  When the selected name has a
    stored record, that record stands for the defaults as a whole, every
    setting taking the value the record has; when it has none, the
    defaults stand.  Over this, each setting takes the value of its flag
    when the flag was given, and passes through unchanged when not. *)
Theorem currentProfileConfig_layered (cfgFile : ConfigFile) (cl : CommandLine) :
  let stored :=
    lookup_profile cfgFile
      (selected_name (currentProfileName cl) (DefaultProfile cfgFile)) in
  let effective := currentProfileConfig cfgFile cl in
  WavelogURL effective
  = layered (supplied cl "wavelog-url" (wavelogURL cl))
            (WavelogURL <$> stored) (WavelogURL defaultConfig)
  /\ WavelogKey effective
     = layered (supplied cl "wavelog-key" (wavelogKey cl))
               (WavelogKey <$> stored) (WavelogKey defaultConfig)
  /\ RadioName effective
     = layered (supplied cl "radio-name" (radioName cl))
               (RadioName <$> stored) (RadioName defaultConfig)
  /\ FlrigHost effective
     = layered (supplied cl "flrig-host" (flrigHost cl))
               (FlrigHost <$> stored) (FlrigHost defaultConfig)
  /\ FlrigPort effective
     = layered (supplied cl "flrig-port" (flrigPort cl))
               (FlrigPort <$> stored) (FlrigPort defaultConfig)
  /\ HamlibHost effective
     = layered (supplied cl "hamlib-host" (hamlibHost cl))
               (HamlibHost <$> stored) (HamlibHost defaultConfig)
  /\ HamlibPort effective
     = layered (supplied cl "hamlib-port" (hamlibPort cl))
               (HamlibPort <$> stored) (HamlibPort defaultConfig)
  /\ Interval effective
     = layered (supplied cl "interval" (interval cl))
               (Interval <$> stored) (Interval defaultConfig)
  /\ DataSource effective
     = layered (supplied cl "data-source" (dataSource cl))
               (DataSource <$> stored) (DataSource defaultConfig)
  /\ LogLevel effective
     = layered (supplied cl "log-level" (logLevel cl))
               (LogLevel <$> stored) (LogLevel defaultConfig).
Proof.
  cbv zeta. rewrite <- profileToUse_selected.
  repeat split; apply merged_field; intros c name; visit_cases name.
Qed.






End Configuration.

(** * Closed examples

    The theorems above at concrete worlds, with the library of
    [Reference]. *)

Module Examples.

Definition lib : GoLib := Reference.lib.

(** A configuration that passes the validation of [main]. *)
Definition config : ProfileConfig :=
  {| WavelogURL := "http://localhost/index.php"; WavelogKey := "k3y";
     RadioName := "RIG"; FlrigHost := "127.0.0.1"; FlrigPort := 12345;
     HamlibHost := "127.0.0.1"; HamlibPort := 4532; Interval := "1s";
     DataSource := "flrig"; LogLevel := "error" |}.

Definition flrig : RadioClient := FlrigClient "127.0.0.1" 12345.
Definition hamlib : RadioClient := HamlibClient "127.0.0.1" 4532.

Definition refused : error := External "connection refused".
Definition fault : error := External "fault".

(** An flrig daemon by its six answers. *)
Definition answers (vfo mode vfoB modeB : result string) (power split : result Z)
  : XmlRpcServer :=
  {| NewClient := None;
     Call_string := fun method =>
       if String.eqb method "rig.get_vfo" then vfo
       else if String.eqb method "rig.get_mode" then mode
       else if String.eqb method "rig.get_vfoB" then vfoB
       else if String.eqb method "rig.get_modeB" then modeB
       else Failed fault;
     Call_int := fun method =>
       if String.eqb method "rig.get_power" then power
       else if String.eqb method "rig.get_split" then split
       else Failed fault |}.

(** A rigctld daemon by the three lines it sends back. *)
Definition lines (f m P : result string) : Rigctld :=
  {| Dial := None;
     Fprintf := fun _ => None;
     ReadLine := fun n => match n with
                          | O => f
                          | S O => m
                          | _ => P
                          end |}.

Definition absent_flrig : XmlRpcServer :=
  {| NewClient := Some refused;
     Call_string := fun _ => Failed refused;
     Call_int := fun _ => Failed refused |}.

Definition absent_rigctld : Rigctld :=
  {| Dial := Some refused;
     Fprintf := fun _ => Some refused;
     ReadLine := fun _ => Failed refused |}.

(** A world with one flrig daemon, or one rigctld daemon, and a
    Wavelog that answers 200. *)
Definition flrig_world (srv : XmlRpcServer) : World :=
  {| flrig_at := fun _ _ => srv;
     rigctld_at := fun _ _ => absent_rigctld;
     http_post := fun _ _ => Response 200 "" |}.

Definition rigctld_world (d : Rigctld) : World :=
  {| flrig_at := fun _ _ => absent_flrig;
     rigctld_at := fun _ _ => d;
     http_post := fun _ _ => Response 200 "" |}.

Definition tuned : XmlRpcServer :=
  answers (Ok "14074000") (Ok "USB") (Ok "14076000") (Ok "LSB") (Ok 50) (Ok 0).

(** flrig with nothing to report: frequency 0, empty modes. *)
Definition idle : XmlRpcServer :=
  answers (Ok "0") (Ok "") (Ok "0") (Ok "") (Ok 0) (Ok 0).

(** The frequencies of the examples are canonical binary64 values. *)
Example example_frequencies_valid :
  Float64.valid (Float64.of_int 14074000) = true
  /\ Float64.valid (Float64.of_int 14076000) = true
  /\ Float64.truncate (Float64.of_int 14074000) = Some 14074000.
Proof. repeat split. Qed.

(** *** C1 *)

(** The NaN snapshot is one the program reads: flrig answering the
    text NaN is read without error, and two passes that read it both
    post it. *)
Example nan_is_read_and_posted_twice :
  let w := flrig_world (answers (Ok "NaN") (Ok "USB") (Ok "NaN") (Ok "USB")
                                (Ok 100) (Ok 0)) in
  @GetData lib flrig w = (nan_snapshot, None)
  /\ snd (@main_loop lib flrig config [w; w])
     = [Posted nan_snapshot; Posted nan_snapshot].
Proof. split; reflexivity. Qed.

(** *** C6 *)

(** C6 as stated fails: the first pass reads, without error, a
    snapshot equal to the zero value that [lastData] starts with, and
    does not forward it. *)
Lemma first_cycle_skips_zero_snapshot :
  @GetData lib flrig (flrig_world idle) = (RigData_zero, None)
  /\ @main_loop lib flrig config [flrig_world idle]
     = (RigData_zero, [Unchanged RigData_zero]).
Proof. split; reflexivity. Qed.

Lemma first_cycle_forwards_nonzero_witness :
  @GetData lib flrig (flrig_world tuned)
  = ({| FreqVFOA := Float64.of_int 14074000; FreqVFOB := Float64.of_int 14076000;
        Mode := "USB"; ModeB := "LSB"; Split := 0; Power := Float64.of_int 50 |}, None)
  /\ attempts (snd (@main_loop lib flrig config [flrig_world tuned]))
     = [ {| FreqVFOA := Float64.of_int 14074000;
            FreqVFOB := Float64.of_int 14076000;
            Mode := "USB"; ModeB := "LSB"; Split := 0;
            Power := Float64.of_int 50 |} ].
Proof.
  split; [reflexivity|].
  exact (@first_cycle_forwards_nonzero lib flrig config (flrig_world tuned) _ eq_refl).
Defined.

(** *** C4 *)

(** Wavelog down for one pass: the post fails, [lastData] stays, and
    the next pass posts the same snapshot. *)
Definition wavelog_down (w : World) : World :=
  {| flrig_at := flrig_at w; rigctld_at := rigctld_at w;
     http_post := fun _ _ => Response 503 "unavailable" |}.

Lemma lastData_is_last_posted_witness :
  fst (@main_loop lib flrig config [wavelog_down (flrig_world tuned); flrig_world tuned])
  = @last_forwarded lib flrig config RigData_zero
      [wavelog_down (flrig_world tuned); flrig_world tuned]
  /\ (exists err,
         @cycle lib flrig config RigData_zero (wavelog_down (flrig_world tuned))
         = (RigData_zero,
            PostFailed (fst (@GetData lib flrig (flrig_world tuned))) err))
  /\ attempts
       [snd (@cycle lib flrig config
               (fst (@cycle lib flrig config RigData_zero
                       (wavelog_down (flrig_world tuned))))
               (flrig_world tuned))]
     = [fst (@GetData lib flrig (flrig_world tuned))]
  /\ fst (@cycle lib flrig config
            (fst (@cycle lib flrig config RigData_zero
                    (wavelog_down (flrig_world tuned))))
            (flrig_world tuned))
     = fst (@GetData lib flrig (flrig_world tuned)).
Proof.
  destruct (@lastData_is_last_posted lib flrig config) as (Inv & _ & Fail).
  split; [exact (proj1 (Inv [wavelog_down (flrig_world tuned); flrig_world tuned]))|].
  destruct (Fail RigData_zero (wavelog_down (flrig_world tuned))
              (fst (@GetData lib flrig (flrig_world tuned)))
              eq_refl eq_refl eq_refl) as [Failed_post Again].
  destruct (Again (flrig_world tuned) eq_refl) as [Attempt Taken].
  split; [exact Failed_post|]. split; [exact Attempt | exact (Taken eq_refl)].
Defined.

Example retry_after_failed_post :
  exists d,
    @main_loop lib flrig config [wavelog_down (flrig_world tuned); flrig_world tuned]
    = (d, [PostFailed d (Non200Status 503 "unavailable"); Posted d]).
Proof. eexists. reflexivity. Qed.

(** *** C7 *)

Lemma mandatory_failure_aborts_read_witness :
  (exists err,
      @GetData lib flrig
        (flrig_world (answers (Failed fault) (Ok "USB") (Ok "14076000") (Ok "LSB")
                              (Ok 50) (Ok 0)))
      = (RigData_zero, Some err)
      /\ forall cfg lastData,
          @cycle lib flrig cfg lastData
            (flrig_world (answers (Failed fault) (Ok "USB") (Ok "14076000") (Ok "LSB")
                                  (Ok 50) (Ok 0)))
          = (lastData, ReadFailed err))
  /\ (exists err,
         @GetData lib hamlib
           (rigctld_world (lines (Ok "14074000") (Ok "   ") (Ok "50")))
         = (RigData_zero, Some err)
         /\ forall cfg lastData,
             @cycle lib hamlib cfg lastData
               (rigctld_world (lines (Ok "14074000") (Ok "   ") (Ok "50")))
             = (lastData, ReadFailed err)).
Proof.
  split.
  - apply (@mandatory_failure_aborts_read lib flrig). cbn.
    left. exists fault. reflexivity.
  - apply (@mandatory_failure_aborts_read lib hamlib). cbn.
    do 5 right. exists "   ". split; reflexivity.
Defined.

(** *** C8 *)

Lemma power_failure_tolerated_witness :
  @GetData lib flrig
    (flrig_world (answers (Ok "14074000") (Ok "USB") (Ok "14076000") (Ok "LSB")
                          (Failed fault) (Ok 0)))
  = ({| FreqVFOA := Float64.of_int 14074000; FreqVFOB := Float64.of_int 14076000;
        Mode := "USB"; ModeB := "LSB"; Split := 0; Power := Float64.zero |}, None)
  /\ @GetData lib hamlib
       (rigctld_world (lines (Ok "14074000") (Ok "USB 2400") (Ok "n/a")))
     = ({| FreqVFOA := Float64.of_int 14074000; FreqVFOB := Float64.of_int 14074000;
           Mode := "USB"; ModeB := "USB"; Split := 0; Power := Float64.zero |}, None).
Proof.
  split.
  - apply (@power_failure_tolerated lib flrig _ (flrig_world tuned)); cbn.
    + exists fault. reflexivity.
    + repeat split.
  - apply (@power_failure_tolerated lib hamlib _
             (rigctld_world (lines (Ok "14074000") (Ok "USB 2400") (Ok "50")))); cbn.
    + right. right. exists "n/a", Float64.zero, (External "invalid syntax").
      split; reflexivity.
    + repeat split.
Defined.

(** *** C5 *)

(** C5 as stated fails: a VFO-B frequency that arrives as text that
    does not parse (here the empty text) fails the whole read, although
    every VFO-A read succeeded. *)
Lemma unparsable_vfoB_fails_read :
  @FlrigClient_GetData lib
    (answers (Ok "14074000") (Ok "USB") (Ok "") (Ok "LSB") (Ok 50) (Ok 0))
  = (RigData_zero, Some (External "invalid syntax")).
Proof. reflexivity. Qed.

(** Only the call for the VFO-B mode fails: the read succeeds, with
    the frequency of VFO-B as answered and the mode of VFO-A. *)
Lemma vfoB_call_failures_mirror_vfoA_witness :
  exists d,
    @FlrigClient_GetData lib
      (answers (Ok "14074000") (Ok "USB") (Ok "14076000") (Failed fault) (Ok 50) (Ok 0))
    = (d, None)
    /\ FreqVFOA d = Float64.of_int 14074000
    /\ FreqVFOB d = Float64.of_int 14076000
    /\ Mode d = "USB"
    /\ ModeB d = "USB".
Proof.
  exact (proj1 (proj2 (@vfoB_call_failures_mirror_vfoA lib
                         (answers (Ok "14074000") (Ok "USB") (Ok "14076000")
                                  (Failed fault) (Ok 50) (Ok 0))
                         "14074000" (Float64.of_int 14074000) "USB"
                         eq_refl eq_refl eq_refl eq_refl))
           "14076000" (Float64.of_int 14076000) eq_refl eq_refl).
Defined.

Example both_vfoB_calls_fail :
  @FlrigClient_GetData lib
    (answers (Ok "14074000") (Ok "USB") (Failed fault) (Failed fault) (Ok 50) (Ok 0))
  = ({| FreqVFOA := Float64.of_int 14074000; FreqVFOB := Float64.of_int 14074000;
        Mode := "USB"; ModeB := "USB"; Split := 0; Power := Float64.of_int 50 |}, None).
Proof. reflexivity. Qed.

(** *** C2 and C10 *)

Definition split_on : RigData :=
  {| FreqVFOA := Float64.of_int 14076000; FreqVFOB := Float64.of_int 14074000;
     Mode := "DATA"; ModeB := "DATA"; Split := 1; Power := Float64.of_int 50 |}.

(** Split on with nothing on the receive side. *)
Definition split_on_empty_rx : RigData :=
  {| FreqVFOA := Float64.zero; FreqVFOB := Float64.of_int 14074000;
     Mode := ""; ModeB := "DATA"; Split := 1; Power := Float64.of_int 50 |}.

Definition body_without_rx : JSONObject :=
  [ ("key", JString "k3y"); ("radio", JString "RIG");
    ("power", JFloat (Float64.of_int 50));
    ("frequency", JInt 14074000); ("mode", JString "DATA") ].

Definition body_with_rx : JSONObject :=
  [ ("key", JString "k3y"); ("radio", JString "RIG");
    ("power", JFloat (Float64.of_int 50));
    ("frequency", JInt 14074000); ("mode", JString "DATA");
    ("frequency_rx", JInt 14076000); ("mode_rx", JString "DATA") ].

(** C2 as stated fails: with split on, a freqA that truncates to 0 and
    an empty modeA give a body with neither frequency_rx nor mode_rx;
    and an infinite frequency has no truncation. *)
Lemma split_on_body_without_rx :
  Split split_on_empty_rx <> 0
  /\ Float64.truncate (FreqVFOA split_on_empty_rx) = Some 0
  /\ @Marshal (@buildPayload lib config split_on_empty_rx) = Ok body_without_rx
  /\ member "frequency_rx" body_without_rx = None
  /\ member "mode_rx" body_without_rx = None
  /\ Float64.truncate (S754_infinity false) = None.
Proof. repeat split; discriminate. Qed.

Lemma body_mapping_witness :
  member "mode" body_with_rx = Some (JString (ModeB split_on))
  /\ member "mode_rx" body_with_rx = Some (JString (Mode split_on))
  /\ member "frequency" body_with_rx = Some (JInt 14074000)
  /\ member "frequency_rx" body_with_rx = Some (JInt 14076000).
Proof.
  destruct (@body_mapping lib config split_on body_with_rx eq_refl)
    as (_ & _ & _ & _ & On).
  destruct (On ltac:(discriminate)) as (M & MR & F & FR).
  split; [exact M|]. split; [exact MR|].
  split; [exact (F 14074000 eq_refl eq_refl) | exact (FR 14076000 eq_refl eq_refl)].
Defined.

Lemma omitempty_hides_receive_side_witness :
  member "frequency_rx" body_without_rx = None
  /\ member "mode_rx" body_without_rx = None
  /\ @Marshal (@buildPayload lib config (split_off split_on_empty_rx))
     = Ok body_without_rx.
Proof.
  destruct (@omitempty_hides_receive_side lib config split_on_empty_rx body_without_rx
              ltac:(discriminate) eq_refl) as (F & M & B).
  split; [exact (F eq_refl)|]. split; [exact (M eq_refl) | exact (B eq_refl eq_refl)].
Defined.

(** *** C3 and C9 *)

(** A command line: the three profile flags (empty when not given), the
    radio name, and the names of the configuration flags given; the other
    flag variables hold their defaults.  [flag.Visit] reports the profile
    flags that were given too. *)
Definition command_line (profile save setDefault radio : string) (names : list string)
  : CommandLine :=
  {| currentProfileName := profile; saveProfileName := save;
     setDefaultProfileName := setDefault;
     wavelogURL := WavelogURL defaultConfig; wavelogKey := WavelogKey defaultConfig;
     radioName := radio;
     flrigHost := FlrigHost defaultConfig; flrigPort := FlrigPort defaultConfig;
     hamlibHost := HamlibHost defaultConfig; hamlibPort := HamlibPort defaultConfig;
     interval := Interval defaultConfig; dataSource := DataSource defaultConfig;
     logLevel := LogLevel defaultConfig;
     setFlags := (names
                  ++ (if String.eqb profile "" then [] else ["profile"])
                  ++ (if String.eqb save "" then [] else ["save-profile"])
                  ++ (if String.eqb setDefault "" then []
                      else ["set-default-profile"]))%list |}.

(** A configuration file with the one profile home, the default. *)
Definition home_file : ConfigFile :=
  {| DefaultProfile := "home"; Profiles := Some {[ "home" := config ]} |}.

(** No configuration file: what [main] starts from. *)
Definition no_file : ConfigFile :=
  {| DefaultProfile := "default"; Profiles := Some ∅ |}.

(** A second profile, for a portable radio on rigctld. *)
Definition portable : ProfileConfig :=
  {| WavelogURL := "http://localhost/index.php"; WavelogKey := "p0rt";
     RadioName := "KX2"; FlrigHost := "127.0.0.1"; FlrigPort := 12345;
     HamlibHost := "127.0.0.1"; HamlibPort := 4532; Interval := "2s";
     DataSource := "hamlib"; LogLevel := "error" |}.

Definition two_profiles : ConfigFile :=
  {| DefaultProfile := "home";
     Profiles := Some (<[ "portable" := portable ]> {[ "home" := config ]}) |}.

(** A file that records no default name and has a profile called
    default. *)
Definition unnamed_default : ConfigFile :=
  {| DefaultProfile := ""; Profiles := Some {[ "default" := portable ]} |}.

(** A profile object with a key and nothing else, and the file that
    holds it. *)
Definition key_only : ProfileMembers :=
  {| json_wavelog_url := None; json_wavelog_key := Some "k3y";
     json_radio_name := None; json_flrig_host := None; json_flrig_port := None;
     json_hamlib_host := None; json_hamlib_port := None; json_interval := None;
     json_data_source := None; json_log_level := None |}.

Definition sparse_file : ConfigFile :=
  {| DefaultProfile := "home";
     Profiles := Some {[ "home" := Unmarshal_ProfileConfig key_only ]} |}.

(** C3 as stated fails: the stored profile supplies no radio name and
    no URL and no flag is given, yet the defaults do not pass through:
    the effective radio name and URL are empty. *)
Lemma stored_profile_replaces_defaults :
  json_radio_name key_only = None
  /\ json_wavelog_url key_only = None
  /\ setFlags (command_line "" "" "" "RIG" []) = []
  /\ RadioName defaultConfig = "RIG"
  /\ RadioName (currentProfileConfig sparse_file (command_line "" "" "" "RIG" [])) = ""
  /\ WavelogURL (currentProfileConfig sparse_file (command_line "" "" "" "RIG" [])) = "".
Proof. repeat split. Qed.

(** The profile flag selects the stored profile, the radio name comes
    from its flag and the key from the profile selected; without a
    profile flag and without a default name in the file, the profile
    called default is the one. *)
Lemma currentProfileConfig_layered_witness :
  (RadioName (currentProfileConfig two_profiles
                (command_line "portable" "" "" "FT-891" ["radio-name"])) = "FT-891"
   /\ WavelogKey (currentProfileConfig two_profiles
                    (command_line "portable" "" "" "FT-891" ["radio-name"])) = "p0rt")
  /\ WavelogKey (currentProfileConfig unnamed_default (command_line "" "" "" "RIG" []))
     = "p0rt".
Proof.
  destruct (currentProfileConfig_layered two_profiles
              (command_line "portable" "" "" "FT-891" ["radio-name"]))
    as (_ & K & R & _).
  destruct (currentProfileConfig_layered unnamed_default
              (command_line "" "" "" "RIG" []))
    as (_ & K' & _).
  split; [split; [exact R | exact K] | exact K'].
Defined.

Example defaults_are_fatal :
  @main_from_merge lib no_file (command_line "" "" "" "RIG" []) (fun _ => None)
  = Fatalf KeyRequired.
Proof. reflexivity. Qed.

Example home_profile_polls :
  @main_from_merge lib home_file (command_line "" "" "" "RIG" []) (fun _ => None)
  = Polling flrig 1000000000.
Proof. reflexivity. Qed.



(** A read that fails and a post that fails, each followed by a pass
    that is made. *)
Example passes_after_failures :
  snd (@run lib flrig config RigData_zero
         [ rigctld_world (lines (Ok "14074000") (Ok "USB") (Ok "50"));
           wavelog_down (flrig_world tuned);
           flrig_world tuned ])
  = [ ReadFailed refused;
      PostFailed (fst (@GetData lib flrig (flrig_world tuned)))
                 (Non200Status 503 "unavailable");
      Posted (fst (@GetData lib flrig (flrig_world tuned))) ].
Proof. reflexivity. Qed.

End Examples.

(** * Further properties of the program *)

(** ** The readers: what a read returns *)

(** A snapshot with its split indicator replaced. *)
Definition with_Split (d : RigData) (split : Z) : RigData :=
  {| FreqVFOA := FreqVFOA d; FreqVFOB := FreqVFOB d; Mode := Mode d;
     ModeB := ModeB d; Split := split; Power := Power d |}.

(** The outcome of a read with the split of its snapshot, if it has one,
    set to 0. *)
Definition zero_split (r : RigData * option error) : RigData * option error :=
  match r with
  | (d, None) => (with_Split d 0, None)
  | failure => failure
  end.

(** Two flrig daemons that answer alike to everything but the split
    query. *)
Definition flrig_same_but_split (srv srv' : XmlRpcServer) : Prop :=
  NewClient srv = NewClient srv'
  /\ (forall method, Call_string srv method = Call_string srv' method)
  /\ Call_int srv "rig.get_power" = Call_int srv' "rig.get_power".

Section ReadResults.

Context `{GoLib}.

Lemma FlrigClient_error_zero (srv : XmlRpcServer) (d : RigData) (err : error) :
  FlrigClient_GetData srv = (d, Some err) -> d = RigData_zero.
Proof.
  unfold FlrigClient_GetData.
  destruct (NewClient srv) as [e0|]; [intros [= <- _]; reflexivity|].
  destruct (Call_string srv "rig.get_vfo") as [vfoA|e1]; [|intros [= <- _]; reflexivity].
  destruct (ParseFloat vfoA) as [freqA [e2|]]; [intros [= <- _]; reflexivity|].
  destruct (Call_string srv "rig.get_mode") as [mode|e3]; [|intros [= <- _]; reflexivity].
  cbv zeta.
  destruct (ParseFloat _) as [freqB [e4|]]; [intros [= <- _]; reflexivity|discriminate].
Qed.

Lemma HamlibClient_error_zero (d : Rigctld) (x : RigData) (err : error) :
  HamlibClient_GetData d = (x, Some err) -> x = RigData_zero.
Proof.
  unfold HamlibClient_GetData.
  destruct (Dial d) as [e0|]; [intros [= <- _]; reflexivity|].
  destruct (Fprintf d ("f" ++ newline)) as [e1|]; [intros [= <- _]; reflexivity|].
  destruct (ReadLine d 0%nat) as [freqStr|e2]; [|intros [= <- _]; reflexivity].
  destruct (ParseFloat freqStr) as [freqA [e3|]]; [intros [= <- _]; reflexivity|].
  destruct (Fprintf d ("m" ++ newline)) as [e4|]; [intros [= <- _]; reflexivity|].
  destruct (ReadLine d 1%nat) as [modeResp|e5]; [|intros [= <- _]; reflexivity].
  destruct (Fields modeResp) as [|mode rest]; [intros [= <- _]; reflexivity|discriminate].
Qed.

(** X1: whatever the daemon does, a read that returns an error returns
    the zero [RigData] with it: no field read before the failure leaks
    out. *)
Theorem GetData_error_returns_zero
    (client : RadioClient) (w : World) (d : RigData) (err : error) :
  GetData client w = (d, Some err) -> d = RigData_zero.
Proof.
  destruct client as [Host Port|Host Port]; cbn.
  - apply FlrigClient_error_zero.
  - apply HamlibClient_error_zero.
Qed.

(** X2: a read of flrig succeeds exactly when the client is made, no
    mandatory read fails, and the text taken for VFO-B (the reply, or
    the text of VFO-A when the call fails) parses: the power, split and
    VFO-B mode calls never decide it. *)
Theorem FlrigClient_succeeds_iff (srv : XmlRpcServer) :
  snd (FlrigClient_GetData srv) = None
  <-> NewClient srv = None
      /\ ~ flrig_mandatory_failure srv
      /\ (forall vfoA,
             Call_string srv "rig.get_vfo" = Ok vfoA ->
             snd (ParseFloat match Call_string srv "rig.get_vfoB" with
                             | Ok v => v
                             | Failed _ => vfoA
                             end) = None).
Proof.
  unfold flrig_mandatory_failure, FlrigClient_GetData.
  destruct (NewClient srv) as [e0|];
    [split; [discriminate | intros [? _]; discriminate]|].
  destruct (Call_string srv "rig.get_vfo") as [vfoA|e1];
    [|split; [discriminate | intros (_ & N & _); exfalso; apply N; eauto]].
  destruct (ParseFloat vfoA) as [freqA [e2|]] eqn:P;
    [split; [discriminate | intros (_ & N & _); exfalso; apply N; right; left; eauto]|].
  destruct (Call_string srv "rig.get_mode") as [mode|e3];
    [|split; [discriminate | intros (_ & N & _); exfalso; apply N; eauto]].
  cbv zeta.
  destruct (ParseFloat match Call_string srv "rig.get_vfoB" with
                       | Ok v => v
                       | Failed _ => vfoA
                       end) as [freqB [e4|]] eqn:PB; cbn.
  - split; [discriminate|]. intros (_ & _ & B).
    specialize (B vfoA eq_refl). rewrite PB in B. discriminate.
  - split; [|reflexivity]. intros _. split; [reflexivity|]. split.
    + intros [[e E]|[(v & x & e & E1 & E2)|[e E]]]; try discriminate.
      injection E1 as <-. congruence.
    + intros v [= <-]. rewrite PB. reflexivity.
Qed.

(** X3: a failure of the split call of flrig is tolerated like that of
    the power call: the read ends as in any world that differs only in
    its answer to the split query, a snapshot coming with split 0. *)
Theorem FlrigClient_split_failure_tolerated (srv srv' : XmlRpcServer) (err : error) :
  Call_int srv "rig.get_split" = Failed err ->
  flrig_same_but_split srv srv' ->
  FlrigClient_GetData srv = zero_split (FlrigClient_GetData srv').
Proof.
  intros F (N & S & I). unfold FlrigClient_GetData.
  rewrite F, <- N, <- I, <- !S.
  destruct (NewClient srv) as [e0|]; [reflexivity|].
  destruct (Call_string srv "rig.get_vfo") as [vfoA|e1]; [|reflexivity].
  destruct (ParseFloat vfoA) as [freqA [e2|]]; [reflexivity|].
  destruct (Call_string srv "rig.get_mode") as [mode|e3]; [|reflexivity].
  cbv zeta.
  destruct (ParseFloat _) as [freqB [e4|]]; reflexivity.
Qed.

(** What a successful read of rigctld holds. *)
Lemma HamlibClient_success (d : Rigctld) (x : RigData) :
  HamlibClient_GetData d = (x, None) ->
  exists freqStr modeResp rest,
    ReadLine d 0%nat = Ok freqStr
    /\ ParseFloat freqStr = (FreqVFOA x, None)
    /\ ReadLine d 1%nat = Ok modeResp
    /\ Fields modeResp = Mode x :: rest
    /\ x = {| FreqVFOA := FreqVFOA x; FreqVFOB := FreqVFOA x;
              Mode := Mode x; ModeB := Mode x; Split := 0;
              Power := hamlib_power d |}.
Proof.
  unfold HamlibClient_GetData.
  destruct (Dial d) as [e0|]; [discriminate|].
  destruct (Fprintf d ("f" ++ newline)) as [e1|]; [discriminate|].
  destruct (ReadLine d 0%nat) as [freqStr|e2]; [|discriminate].
  destruct (ParseFloat freqStr) as [freqA [e3|]] eqn:P; [discriminate|].
  destruct (Fprintf d ("m" ++ newline)) as [e4|]; [discriminate|].
  destruct (ReadLine d 1%nat) as [modeResp|e5]; [|discriminate].
  destruct (Fields modeResp) as [|mode rest] eqn:Fs; [discriminate|].
  intros [= <-]. cbn. exists freqStr, modeResp, rest. repeat split; assumption.
Qed.

(** X4: a snapshot read from rigctld never reports split and has no
    secondary VFO of its own: split is 0, freqB is freqA and modeB is
    modeA; the mode is the first field of the reply to m, whatever
    follows it (the passband). *)
Theorem HamlibClient_mirrors_vfoA (d : Rigctld) (x : RigData) :
  HamlibClient_GetData d = (x, None) ->
  Split x = 0
  /\ FreqVFOB x = FreqVFOA x
  /\ ModeB x = Mode x
  /\ exists modeResp rest,
      ReadLine d 1%nat = Ok modeResp /\ Fields modeResp = Mode x :: rest.
Proof.
  intros R. destruct (HamlibClient_success d x R)
    as (freqStr & modeResp & rest & _ & _ & R1 & Fs & E).
  rewrite E. cbn. repeat split. exists modeResp, rest. split; assumption.
Qed.

(** X5: a read of rigctld succeeds exactly when the connection is made
    and no mandatory read fails: the power query never decides it. *)
Theorem HamlibClient_succeeds_iff (d : Rigctld) :
  snd (HamlibClient_GetData d) = None
  <-> Dial d = None /\ ~ hamlib_mandatory_failure d.
Proof.
  unfold hamlib_mandatory_failure, HamlibClient_GetData.
  destruct (Dial d) as [e0|];
    [split; [discriminate | intros [? _]; discriminate]|].
  destruct (Fprintf d ("f" ++ newline)) as [e1|];
    [split; [discriminate | intros [_ N]; exfalso; apply N; eauto]|].
  destruct (ReadLine d 0%nat) as [freqStr|e2];
    [|split; [discriminate | intros [_ N]; exfalso; apply N; eauto]].
  destruct (ParseFloat freqStr) as [freqA [e3|]] eqn:P;
    [split; [discriminate
            | intros [_ N]; exfalso; apply N; right; right; left; eauto]|].
  destruct (Fprintf d ("m" ++ newline)) as [e4|];
    [split; [discriminate | intros [_ N]; exfalso; apply N; eauto 6]|].
  destruct (ReadLine d 1%nat) as [modeResp|e5];
    [|split; [discriminate | intros [_ N]; exfalso; apply N; eauto 7]].
  destruct (Fields modeResp) as [|mode rest] eqn:Fs;
    [split; [discriminate | intros [_ N]; exfalso; apply N; do 5 right; eauto]|].
  cbn. split; [|reflexivity]. intros _. split; [reflexivity|].
  intros [[e E]|[[e E]|[(v & x & e & E1 & E2)|[[e E]|[[e E]|(m & E1 & E2)]]]]];
    try discriminate.
  - injection E1 as <-. congruence.
  - injection E1 as <-. congruence.
Qed.

End ReadResults.

(** ** The forwarder: conversion, body and outcome *)

Section ForwarderResults.

Context `{GoLib}.

(** X6: converting a finite frequency whose truncation fits in an [int]
    discards the fraction and nothing else: the result has the sign of
    the value, is the value itself when the value is whole, and otherwise
    is the whole number next to it on the side of zero. *)
Theorem float64_to_int_discards_fraction (s : bool) (m : positive) (e z : Z) :
  Float64.truncate (S754_finite s m e) = Some z ->
  fits_int z = true ->
  float64_to_int (S754_finite s m e) = z
  /\ (if s then z <= 0 else 0 <= z)
  /\ (0 <= e -> Z.abs z = Z.pos m * 2 ^ e)
  /\ (e < 0 -> Z.abs z * 2 ^ (- e) <= Z.pos m < (Z.abs z + 1) * 2 ^ (- e)).
Proof.
  intros T F. split; [exact (float64_to_int_truncate _ _ T F)|].
  destruct (truncate_finite s m e) as (a & Ta & A0 & Whole & Frac).
  rewrite Ta in T. injection T as <-.
  assert (Z.abs (if s then - a else a) = a) as -> by (destruct s; lia).
  split; [destruct s; lia|]. split; assumption.
Qed.

Lemma buildPayload_Power (config : ProfileConfig) (data : RigData) :
  payload_Power (buildPayload config data) = Power data.
Proof. unfold buildPayload. destruct (negb (Split data =? 0)); reflexivity. Qed.

Lemma Marshal_Ok_finite (payload : WavelogJSONRequest) (body : JSONObject) :
  Marshal payload = Ok body -> Float64.is_finite (payload_Power payload) = true.
Proof.
  unfold Marshal. destruct (Float64.is_finite (payload_Power payload));
    [reflexivity|discriminate].
Qed.

(** A post that returns nil had a body to send and a 200 for it. *)
Lemma postToWavelog_None (config : ProfileConfig) (data : RigData)
    (post : string -> JSONObject -> Exchange) :
  postToWavelog config data post = None ->
  exists body resp,
    Marshal (buildPayload config data) = Ok body
    /\ post (WavelogURL config ++ "/api/radio")%string body = Response 200 resp.
Proof.
  unfold postToWavelog.
  destruct (Marshal (buildPayload config data)) as [body|e]; [|discriminate].
  cbv zeta.
  destruct (post (WavelogURL config ++ "/api/radio")%string body)
    as [e|e|code resp] eqn:P; try discriminate.
  destruct (Z.eqb_spec code 200) as [->|N]; [|discriminate].
  intros _. exists body, resp. split; [reflexivity | exact P].
Qed.

(** X7: [postToWavelog] returns nil exactly when the payload can be
    encoded and the server answers 200 to the POST of it at the
    configured URL followed by /api/radio; any other status, a failed
    request and a payload that cannot be encoded are all errors. *)
Theorem postToWavelog_nil_iff (config : ProfileConfig) (data : RigData)
    (post : string -> JSONObject -> Exchange) :
  postToWavelog config data post = None
  <-> exists body resp,
      Marshal (buildPayload config data) = Ok body
      /\ post (WavelogURL config ++ "/api/radio")%string body = Response 200 resp.
Proof.
  split; [apply postToWavelog_None|].
  intros (body & resp & M & P). unfold postToWavelog. rewrite M, P. reflexivity.
Qed.

(** X8: the body is a well-formed JSON object: no key occurs twice; it
    starts with key, radio, power, frequency and mode in this order and
    has at most two members more. *)
Theorem Marshal_keys_distinct (payload : WavelogJSONRequest) (body : JSONObject) :
  Marshal payload = Ok body ->
  List.NoDup (map fst body)
  /\ map fst (firstn 5 body) = ["key"; "radio"; "power"; "frequency"; "mode"]
  /\ (5 <= length body <= 7)%nat.
Proof.
  intros M. apply Marshal_Ok in M. subst body.
  destruct (FrequencyRX payload =? 0), (String.eqb (ModeRX payload) "");
    cbn; (split; [|split; [reflexivity|lia]]);
    repeat (constructor; [cbn; intuition discriminate|]); constructor.
Qed.

(** X9: a snapshot read from rigctld is always forwarded as a plain,
    split-off update: its body has the mode read, written as a JSON
    string (bytes that are not well-formed UTF-8 replaced by U+FFFD), and
    neither frequency_rx nor mode_rx. *)
Theorem hamlib_body_has_no_rx
    (config : ProfileConfig) (d : Rigctld) (x : RigData) (body : JSONObject) :
  HamlibClient_GetData d = (x, None) ->
  Marshal (buildPayload config x) = Ok body ->
  member "mode" body = Some (JString (coerceUTF8 (Mode x)))
  /\ member "frequency_rx" body = None
  /\ member "mode_rx" body = None.
Proof.
  intros R M. apply Marshal_Ok in M. subst body.
  destruct (HamlibClient_success d x R) as (_ & _ & _ & _ & _ & _ & _ & E).
  rewrite E. cbn. repeat split.
Qed.

End ForwarderResults.

(** ** The poll loop: what it keeps and what it never does *)

Section LoopResults.

Context `{GoLib}.
Variables (client : RadioClient) (config : ProfileConfig).

Lemma loop_cons (lastData : RigData) (w : World) (ws : list World) :
  loop client config lastData (w :: ws)
  = (fst (loop client config (fst (cycle client config lastData w)) ws),
     snd (cycle client config lastData w)
     :: snd (loop client config (fst (cycle client config lastData w)) ws)).
Proof.
  cbn [loop]. destruct (cycle client config lastData w) as [l c]. cbn [fst snd].
  destruct (loop client config l ws) as [f cs]. reflexivity.
Qed.

(** What each outcome of a pass says about its read and its post. *)
Lemma cycle_outcome (lastData : RigData) (w : World) :
  match snd (cycle client config lastData w) with
  | ReadFailed err => exists d, GetData client w = (d, Some err)
  | Unchanged d =>
      GetData client w = (d, None) /\ RigData_eqb d lastData = true
  | PostFailed d err =>
      GetData client w = (d, None) /\ RigData_eqb d lastData = false
      /\ postToWavelog config d (http_post w) = Some err
  | Posted d =>
      GetData client w = (d, None) /\ RigData_eqb d lastData = false
      /\ postToWavelog config d (http_post w) = None
  end.
Proof.
  unfold cycle, ChangeGate.
  destruct (GetData client w) as [d [err|]]; cbn; [eauto|].
  destruct (RigData_eqb d lastData) eqn:E; cbn; [auto|].
  destruct (postToWavelog config d (http_post w)) eqn:P; cbn; auto.
Qed.

Lemma cycle_finite_power (lastData : RigData) (w : World) :
  Float64.is_finite (Power lastData) = true ->
  Float64.is_finite (Power (fst (cycle client config lastData w))) = true.
Proof.
  intros F. rewrite cycle_lastData.
  pose proof (cycle_outcome lastData w) as O.
  destruct (snd (cycle client config lastData w)) as [e|d|d e|d]; try exact F.
  destruct O as (_ & _ & P).
  apply postToWavelog_None in P. destruct P as (body & resp & M & _).
  apply Marshal_Ok_finite in M. rewrite buildPayload_Power in M. exact M.
Qed.

Lemma loop_finite_power (ws : list World) :
  forall lastData : RigData,
    Float64.is_finite (Power lastData) = true ->
    Float64.is_finite (Power (fst (loop client config lastData ws))) = true.
Proof.
  induction ws as [|w ws IH]; intros lastData F; [exact F|].
  rewrite loop_cons. cbn [fst]. apply IH, cycle_finite_power, F.
Qed.

(** X11: a snapshot whose power is NaN or infinite (rigctld may send
    such a text) is never forwarded with success, whatever Wavelog
    answers: the baseline of the loop of [main] always has a finite
    power, and so has every snapshot of a successful post. *)
Theorem lastData_power_finite (ws : list World) :
  Float64.is_finite (Power (fst (main_loop client config ws))) = true
  /\ forall d, In (Posted d) (snd (main_loop client config ws)) ->
               Float64.is_finite (Power d) = true.
Proof.
  split; [apply loop_finite_power; reflexivity|].
  unfold main_loop. generalize RigData_zero.
  induction ws as [|w ws IH]; intros lastData d; [intros []|].
  rewrite loop_cons. cbn [snd]. intros [E|I]; [|exact (IH _ d I)].
  pose proof (cycle_outcome lastData w) as O. rewrite E in O.
  destruct O as (_ & _ & P).
  apply postToWavelog_None in P. destruct P as (body & resp & M & _).
  apply Marshal_Ok_finite in M. rewrite buildPayload_Power in M. exact M.
Qed.

(** X12: two passes in a row that read the same snapshot, changed and
    free of NaN, forward it once when the first post succeeds: the
    second pass finds it unchanged. *)
Theorem identical_reads_post_once (lastData : RigData) (w1 w2 : World) (d : RigData) :
  GetData client w1 = (d, None) ->
  GetData client w2 = (d, None) ->
  ChangeGate lastData d = forward ->
  no_nan d = true ->
  postToWavelog config d (http_post w1) = None ->
  loop client config lastData [w1; w2] = (d, [Posted d; Unchanged d]).
Proof.
  intros R1 R2 G N P. cbn [loop]. unfold cycle at 1. rewrite R1, G, P.
  unfold cycle, ChangeGate. rewrite R2, (RigData_eqb_refl d N). reflexivity.
Qed.

(** X13: the loop forwards nothing it has not read: every snapshot it
    tries to post was read without error in one of its passes, and the
    [lastData] it ends with is the one it started with or such a
    snapshot. *)
Theorem attempts_were_read (ws : list World) (lastData : RigData) :
  (forall d, In d (attempts (snd (loop client config lastData ws))) ->
             exists w, In w ws /\ GetData client w = (d, None))
  /\ (fst (loop client config lastData ws) = lastData
      \/ exists w, In w ws
                   /\ GetData client w = (fst (loop client config lastData ws), None)).
Proof.
  revert lastData. induction ws as [|w ws IH]; intros lastData.
  - split; [intros d []|left; reflexivity].
  - rewrite loop_cons. cbn [fst snd].
    pose proof (cycle_outcome lastData w) as O.
    pose proof (cycle_lastData client config lastData w) as L.
    destruct (IH (fst (cycle client config lastData w))) as [A F].
    split.
    + intros d I.
      assert (In d (attempts (snd (loop client config
                                     (fst (cycle client config lastData w)) ws)))
              -> exists w0, In w0 (w :: ws) /\ GetData client w0 = (d, None)) as Rest
        by (intros I'; destruct (A d I') as (w0 & I0 & R0); exists w0; split;
            [right; exact I0 | exact R0]).
      destruct (snd (cycle client config lastData w)) as [e|x|x e|x]; cbn in I;
        try (apply Rest; exact I);
        (destruct I as [<-|I]; [|apply Rest; exact I]);
        exists w; (split; [left; reflexivity | apply O]).
    + destruct F as [F|(w0 & I0 & R0)].
      * rewrite F, L.
        destruct (snd (cycle client config lastData w)) as [e|x|x e|x];
          try (left; reflexivity).
        right. exists w. split; [left; reflexivity | apply O].
      * right. exists w0. split; [right; exact I0 | exact R0].
Qed.

(** X14: while Wavelog answers no POST with 200, the loop keeps the
    [lastData] it has, however many passes it makes and whatever it
    reads. *)
Theorem lastData_kept_while_posts_fail (ws : list World) (lastData : RigData) :
  (forall w url body resp, In w ws -> http_post w url body <> Response 200 resp) ->
  fst (loop client config lastData ws) = lastData.
Proof.
  revert lastData. induction ws as [|w ws IH]; intros lastData Down; [reflexivity|].
  rewrite loop_cons. cbn [fst].
  assert (C : fst (cycle client config lastData w) = lastData).
  { rewrite cycle_lastData. pose proof (cycle_outcome lastData w) as O.
    destruct (snd (cycle client config lastData w)) as [e|x|x e|x]; try reflexivity.
    destruct O as (_ & _ & P). apply postToWavelog_None in P.
    destruct P as (body & resp & _ & P).
    exfalso. exact (Down w _ body resp (or_introl eq_refl) P). }
  rewrite C. apply IH. intros w0 url body resp I. apply Down. right. exact I.
Qed.

End LoopResults.

(** ** The poll loop: how loudly a failed read is logged (lines 472-481) *)

(** [strings.Contains]: [substr] occurs in [s] (bytewise). *)
Fixpoint Contains (s substr : string) : bool :=
  String.prefix substr s
  || match s with
     | EmptyString => false
     | String _ s' => Contains s' substr
     end.

(** [err.Error()]: the text of an error.  A library's error has the text
    it came with; [fmt.Errorf] with [%w] puts the text of the cause after
    the context. *)
Fixpoint error_Error (err : error) : string :=
  match err with
  | External msg => msg
  | Wrapped context cause => context ++ ": " ++ error_Error cause
  | InvalidModeResponse modeResp =>
      "invalid mode response format from hamlib: '" ++ modeResp ++ "'"
  | Non200Status StatusCode body =>
      "wavelog API returned non-200 status code: "
      ++ NilZero.string_of_int (Z.to_int StatusCode) ++ ". Body: " ++ body
  end.

Inductive Level : Type := DebugLevel | ErrorLevel.

Section ReadErrorLevel.

(** [errors.As(err, &netErr) && netErr.Timeout()]: whether the chain of
    [err] holds a [net.Error] that reports a timeout. *)
Variable net_Timeout : error -> bool.

(** Line 476: the level at which the loop logs the error of a read. *)
Definition read_error_level (err : error) : Level :=
  if net_Timeout err
     || Contains (error_Error err) "connection refused"
     || Contains (error_Error err) "dial tcp"
  then DebugLevel else ErrorLevel.

End ReadErrorLevel.

(** The first contact with the daemon fails with [e]: for flrig the
    making of the client or, the client made, the first call; for rigctld
    the dial. *)
Definition first_contact_fails (client : RadioClient) (w : World) (e : error) : Prop :=
  match client with
  | FlrigClient Host Port =>
      NewClient (flrig_at w Host Port) = Some e
      \/ (NewClient (flrig_at w Host Port) = None
          /\ Call_string (flrig_at w Host Port) "rig.get_vfo" = Failed e)
  | HamlibClient Host Port => Dial (rigctld_at w Host Port) = Some e
  end.

Section ReadErrorLevelResults.

Context `{GoLib}.
Variable net_Timeout : error -> bool.

Lemma Contains_app_r (s t substr : string) :
  Contains t substr = true -> Contains (s ++ t) substr = true.
Proof.
  intros C. induction s as [|c s IH]; [exact C|].
  change (String c s ++ t)%string with (String c (s ++ t)).
  cbn [Contains]. rewrite IH. apply Bool.orb_true_r.
Qed.

Lemma Contains_Wrapped (context : string) (cause : error) (substr : string) :
  Contains (error_Error cause) substr = true ->
  Contains (error_Error (Wrapped context cause)) substr = true.
Proof.
  intros C. cbn [error_Error]. apply Contains_app_r, Contains_app_r, C.
Qed.

Lemma read_error_level_Debug (err : error) :
  Contains (error_Error err) "connection refused" = true
  \/ Contains (error_Error err) "dial tcp" = true ->
  read_error_level net_Timeout err = DebugLevel.
Proof.
  unfold read_error_level. intros [-> | ->];
    rewrite ?Bool.orb_true_r; reflexivity.
Qed.

(** X15: a daemon that is not there is waited for quietly.  When the
    first contact fails with an error whose text says connection refused
    or dial tcp, the read fails and its error, with or without the
    context the reader puts before it, is logged at debug level. *)
Theorem unreachable_daemon_logged_at_debug
    (client : RadioClient) (w : World) (e : error) :
  first_contact_fails client w e ->
  Contains (error_Error e) "connection refused" = true
  \/ Contains (error_Error e) "dial tcp" = true ->
  exists err,
    GetData client w = (RigData_zero, Some err)
    /\ read_error_level net_Timeout err = DebugLevel.
Proof.
  intros F C.
  assert (W : forall context,
             read_error_level net_Timeout (Wrapped context e) = DebugLevel).
  { intros context. apply read_error_level_Debug.
    destruct C as [C|C]; [left|right]; apply Contains_Wrapped, C. }
  destruct client as [Host Port|Host Port]; cbn in *.
  - unfold FlrigClient_GetData. destruct F as [N|[N V]].
    + rewrite N. eexists. split; [reflexivity|].
      apply read_error_level_Debug, C.
    + rewrite N, V. eexists. split; [reflexivity | apply W].
  - unfold HamlibClient_GetData. rewrite F.
    eexists. split; [reflexivity | apply W].
Qed.

End ReadErrorLevelResults.

(** ** Configuration: flags, profiles and the profile commands *)

(** Lines 359-368: the configuration file [main] goes on with; one that
    cannot be loaded leaves the default name and no profile. *)
Definition cfgFile_after_load (loadedCfgFile : result ConfigFile) : ConfigFile :=
  match loadedCfgFile with
  | Ok loaded => loaded
  | Failed _ => {| DefaultProfile := "default"; Profiles := Some ∅ |}
  end.


(** A command line with other flags reported as given. *)
Definition with_setFlags (cl : CommandLine) (names : list string) : CommandLine :=
  {| currentProfileName := currentProfileName cl;
     saveProfileName := saveProfileName cl;
     setDefaultProfileName := setDefaultProfileName cl;
     wavelogURL := wavelogURL cl; wavelogKey := wavelogKey cl;
     radioName := radioName cl;
     flrigHost := flrigHost cl; flrigPort := flrigPort cl;
     hamlibHost := hamlibHost cl; hamlibPort := hamlibPort cl;
     interval := interval cl; dataSource := dataSource cl;
     logLevel := logLevel cl; setFlags := names |}.

Section ConfigurationResults.

Context `{GoLib}.

Ltac visit_step name :=
  unfold visit;
  repeat match goal with
         | |- context [String.eqb name ?s] =>
             destruct (String.eqb_spec name s); [subst name; reflexivity|]
         end;
  reflexivity.

Lemma ProfileConfig_ext (c1 c2 : ProfileConfig) :
  WavelogURL c1 = WavelogURL c2 -> WavelogKey c1 = WavelogKey c2 ->
  RadioName c1 = RadioName c2 -> FlrigHost c1 = FlrigHost c2 ->
  FlrigPort c1 = FlrigPort c2 -> HamlibHost c1 = HamlibHost c2 ->
  HamlibPort c1 = HamlibPort c2 -> Interval c1 = Interval c2 ->
  DataSource c1 = DataSource c2 -> LogLevel c1 = LogLevel c2 ->
  c1 = c2.
Proof. destruct c1, c2; cbn; intros; subst; reflexivity. Qed.

Lemma existsb_same_members (flag : string) (names names' : list string) :
  (forall n, In n names <-> In n names') ->
  existsb (String.eqb flag) names = existsb (String.eqb flag) names'.
Proof.
  intros Same. apply Bool.eq_iff_eq_true. rewrite !existsb_exists.
  split; intros (n & I & E); exists n; (split; [apply Same, I | exact E]).
Qed.

(** The fields of a configuration after the flags have been visited. *)
Lemma fold_visit_fields (cl : CommandLine) (names : list string) (c : ProfileConfig) :
  let c' := fold_left (visit cl) names c in
  let flag name := existsb (String.eqb name) names in
  WavelogURL c' = (if flag "wavelog-url" then wavelogURL cl else WavelogURL c)
  /\ WavelogKey c' = (if flag "wavelog-key" then wavelogKey cl else WavelogKey c)
  /\ RadioName c' = (if flag "radio-name" then radioName cl else RadioName c)
  /\ FlrigHost c' = (if flag "flrig-host" then flrigHost cl else FlrigHost c)
  /\ FlrigPort c' = (if flag "flrig-port" then flrigPort cl else FlrigPort c)
  /\ HamlibHost c' = (if flag "hamlib-host" then hamlibHost cl else HamlibHost c)
  /\ HamlibPort c' = (if flag "hamlib-port" then hamlibPort cl else HamlibPort c)
  /\ Interval c' = (if flag "interval" then interval cl else Interval c)
  /\ DataSource c' = (if flag "data-source" then dataSource cl else DataSource c)
  /\ LogLevel c' = (if flag "log-level" then logLevel cl else LogLevel c).
Proof.
  cbv zeta.
  repeat split; apply fold_visit_field; intros c0 name; visit_step name.
Qed.

Lemma fold_visit_same_members (cl : CommandLine) (names names' : list string)
    (c : ProfileConfig) :
  (forall n, In n names <-> In n names') ->
  fold_left (visit cl) names c = fold_left (visit cl) names' c.
Proof.
  intros Same.
  destruct (fold_visit_fields cl names c)
    as (A1 & A2 & A3 & A4 & A5 & A6 & A7 & A8 & A9 & A10).
  destruct (fold_visit_fields cl names' c)
    as (B1 & B2 & B3 & B4 & B5 & B6 & B7 & B8 & B9 & B10).
  pose proof (fun flag => existsb_same_members flag names names' Same) as E.
  rewrite <- E in B1; rewrite <- E in B2; rewrite <- E in B3; rewrite <- E in B4;
    rewrite <- E in B5; rewrite <- E in B6; rewrite <- E in B7; rewrite <- E in B8;
    rewrite <- E in B9; rewrite <- E in B10.
  apply ProfileConfig_ext; congruence.
Qed.

(** X16: the merge depends only on which flags were given, not on the
    order in which [flag.Visit] reports them nor on a name reported more
    than once. *)
Theorem currentProfileConfig_same_flags
    (cfgFile : ConfigFile) (cl : CommandLine) (names : list string) :
  (forall n, In n (setFlags cl) <-> In n names) ->
  currentProfileConfig cfgFile (with_setFlags cl names)
  = currentProfileConfig cfgFile cl.
Proof.
  intros Same. unfold currentProfileConfig.
  change (profileConfig cfgFile (with_setFlags cl names))
    with (profileConfig cfgFile cl).
  change (visit (with_setFlags cl names)) with (visit cl).
  cbn [setFlags with_setFlags].
  symmetry. apply fold_visit_same_members, Same.
Qed.


Lemma profileToUse_default (cfgFile : ConfigFile) (cl : CommandLine) :
  currentProfileName cl = "" -> DefaultProfile cfgFile <> "" ->
  profileToUse cfgFile cl = DefaultProfile cfgFile.
Proof.
  intros E N. unfold profileToUse. rewrite E. cbn.
  apply String.eqb_neq in N. rewrite N. reflexivity.
Qed.




(** X18: -set-default-profile comes first, whatever the other flags:
    when it is given, the run returns only if the profile named is a
    stored one and the file with the profiles unchanged and that name as
    its default is written without error; a later run on that file with
    no flag has the configuration of that profile. *)
Theorem default_profile_runs_as_set
    (cfgFile : ConfigFile) (cl : CommandLine) (saveConfig : ConfigFile -> option error) :
  setDefaultProfileName cl <> "" ->
  main_from_merge cfgFile cl saveConfig = Returned ->
  let saved :=
    {| DefaultProfile := setDefaultProfileName cl; Profiles := Profiles cfgFile |} in
  saveConfig saved = None
  /\ exists p,
      lookup_profile cfgFile (setDefaultProfileName cl) = Some p
      /\ forall cl',
          currentProfileName cl' = "" ->
          setFlags cl' = [] ->
          currentProfileConfig saved cl' = p.
Proof.
  intros D. cbv zeta. unfold main_from_merge.
  pose proof D as D'. apply String.eqb_neq in D'. rewrite D'. cbn [negb].
  destruct (lookup_profile cfgFile (setDefaultProfileName cl)) as [p|] eqn:L;
    [|discriminate].
  destruct (saveConfig _) as [err|] eqn:Sv; [discriminate|].
  intros _. split; [reflexivity|]. exists p. split; [reflexivity|].
  intros cl' P F. unfold currentProfileConfig. rewrite F. cbn [fold_left].
  unfold profileConfig. rewrite profileToUse_default by assumption.
  cbn [DefaultProfile]. change (lookup_profile cfgFile (setDefaultProfileName cl))
    with (lookup_profile
            {| DefaultProfile := setDefaultProfileName cl;
               Profiles := Profiles cfgFile |} (setDefaultProfileName cl)) in L.
  rewrite L. reflexivity.
Qed.

(** X19: a run without the profile commands whose configuration file
    could not be loaded, or holds no profile of the selected name, and
    that is given no -wavelog-key flag, ends with the fatal message that
    the key is required, whatever its other flags. *)
Theorem missing_profile_needs_key_flag
    (loadedCfgFile : result ConfigFile) (cl : CommandLine)
    (saveConfig : ConfigFile -> option error) :
  setDefaultProfileName cl = "" ->
  saveProfileName cl = "" ->
  given cl "wavelog-key" = false ->
  (exists err, loadedCfgFile = Failed err)
  \/ lookup_profile (cfgFile_after_load loadedCfgFile)
       (profileToUse (cfgFile_after_load loadedCfgFile) cl) = None ->
  main_from_merge (cfgFile_after_load loadedCfgFile) cl saveConfig = Fatalf KeyRequired.
Proof.
  intros D S G M.
  assert (L : lookup_profile (cfgFile_after_load loadedCfgFile)
                (profileToUse (cfgFile_after_load loadedCfgFile) cl) = None).
  { destruct M as [[err ->]|M]; [apply lookup_empty | exact M]. }
  unfold main_from_merge. rewrite D, S. cbn [String.eqb negb].
  assert (K : WavelogKey (currentProfileConfig (cfgFile_after_load loadedCfgFile) cl)
              = "YOUR_API_KEY").
  { unfold currentProfileConfig, profileConfig. rewrite L.
    destruct (fold_visit_fields cl (setFlags cl) defaultConfig) as (_ & K & _).
    rewrite K. unfold given in G. rewrite G. reflexivity. }
  unfold startup. rewrite K. reflexivity.
Qed.

End ConfigurationResults.

Section StartupResults.

Context `{GoLib}.

(** X20: the validation lets the run into the loop exactly when the key
    is neither empty nor the placeholder, the URL is not empty and the
    interval parses, and then with the client of the configured source:
    flrig at the flrig host and port, or hamlib at the hamlib host and
    port, the source compared in lower case; the host and port of the
    other source play no part. *)
Theorem startup_Polling_iff (cfg : ProfileConfig) (client : RadioClient) (i : Z) :
  startup cfg = Polling client i
  <-> WavelogKey cfg <> "" /\ WavelogKey cfg <> "YOUR_API_KEY"
      /\ WavelogURL cfg <> ""
      /\ ParseDuration (Interval cfg) = (i, None)
      /\ ((ToLower (DataSource cfg) = "flrig"
           /\ client = FlrigClient (FlrigHost cfg) (FlrigPort cfg))
          \/ (ToLower (DataSource cfg) = "hamlib"
              /\ client = HamlibClient (HamlibHost cfg) (HamlibPort cfg))).
Proof.
  unfold startup, chooseClient. cbn [WavelogKey defaultConfig].
  destruct (String.eqb_spec (WavelogKey cfg) "") as [K0|K0];
    [cbn; split; [discriminate | tauto]|].
  destruct (String.eqb_spec (WavelogKey cfg) "YOUR_API_KEY") as [K1|K1];
    [cbn; split; [discriminate | tauto]|].
  cbn [orb].
  destruct (String.eqb_spec (WavelogURL cfg) "") as [U|U];
    [split; [discriminate | tauto]|].
  destruct (String.eqb_spec (ToLower (DataSource cfg)) "flrig") as [F|F].
  - destruct (ParseDuration (Interval cfg)) as [d [err|]].
    + split; [discriminate|]. intros (_ & _ & _ & P & _). discriminate.
    + split.
      * intros [= <- <-]. repeat split; try assumption. left. split; [exact F|reflexivity].
      * intros (_ & _ & _ & [= ->] & [[_ ->]|[L _]]); [reflexivity|].
        rewrite F in L. discriminate.
  - destruct (String.eqb_spec (ToLower (DataSource cfg)) "hamlib") as [L|L].
    + destruct (ParseDuration (Interval cfg)) as [d [err|]].
      * split; [discriminate|]. intros (_ & _ & _ & P & _). discriminate.
      * split.
        -- intros [= <- <-]. repeat split; try assumption. right. split; [exact L|reflexivity].
        -- intros (_ & _ & _ & [= ->] & [[F' _]|[_ ->]]); [contradiction|reflexivity].
    + split; [discriminate|]. intros (_ & _ & _ & _ & [[? _]|[? _]]); contradiction.
Qed.

End StartupResults.

(** ** Closed examples of the further properties *)

Module MoreExamples.

Import Examples.

Definition no_mode : XmlRpcServer :=
  answers (Ok "14074000") (Failed fault) (Ok "14076000") (Ok "LSB") (Ok 50) (Ok 1).

Lemma GetData_error_returns_zero_witness :
  fst (@GetData lib flrig (flrig_world no_mode)) = RigData_zero.
Proof.
  exact (@GetData_error_returns_zero lib flrig (flrig_world no_mode)
           (fst (@GetData lib flrig (flrig_world no_mode)))
           (Wrapped "call failed to rig.get_mode" fault) eq_refl).
Defined.

Lemma FlrigClient_split_failure_tolerated_witness :
  @FlrigClient_GetData lib
    (answers (Ok "14074000") (Ok "USB") (Ok "14076000") (Ok "LSB") (Ok 50) (Failed fault))
  = ({| FreqVFOA := Float64.of_int 14074000; FreqVFOB := Float64.of_int 14076000;
        Mode := "USB"; ModeB := "LSB"; Split := 0; Power := Float64.of_int 50 |}, None).
Proof.
  apply (@FlrigClient_split_failure_tolerated lib
           (answers (Ok "14074000") (Ok "USB") (Ok "14076000") (Ok "LSB") (Ok 50)
                    (Failed fault))
           (answers (Ok "14074000") (Ok "USB") (Ok "14076000") (Ok "LSB") (Ok 50) (Ok 1))
           fault eq_refl).
  repeat split.
Defined.

Definition rigctld_usb : Rigctld := lines (Ok "14074000") (Ok "USB 2400") (Ok "50").

Definition rigctld_usb_snapshot : RigData :=
  {| FreqVFOA := Float64.of_int 14074000; FreqVFOB := Float64.of_int 14074000;
     Mode := "USB"; ModeB := "USB"; Split := 0; Power := Float64.of_int 50 |}.

Lemma HamlibClient_mirrors_vfoA_witness :
  Split rigctld_usb_snapshot = 0
  /\ FreqVFOB rigctld_usb_snapshot = FreqVFOA rigctld_usb_snapshot
  /\ ModeB rigctld_usb_snapshot = Mode rigctld_usb_snapshot
  /\ exists modeResp rest,
      ReadLine rigctld_usb 1%nat = Ok modeResp
      /\ Reference.Fields modeResp = Mode rigctld_usb_snapshot :: rest.
Proof.
  exact (@HamlibClient_mirrors_vfoA lib rigctld_usb rigctld_usb_snapshot eq_refl).
Defined.

(** 14074000.5 Hz as a binary64 value. *)
Lemma float64_to_int_discards_fraction_witness :
  @float64_to_int lib (S754_finite false 7555921483923456 (-29)) = 14074000
  /\ 0 <= 14074000
  /\ (0 <= -29 -> Z.abs 14074000 = Z.pos 7555921483923456 * 2 ^ (-29))
  /\ (-29 < 0 ->
      Z.abs 14074000 * 2 ^ (- -29) <= Z.pos 7555921483923456
      < (Z.abs 14074000 + 1) * 2 ^ (- -29)).
Proof.
  exact (@float64_to_int_discards_fraction lib false 7555921483923456 (-29) 14074000
           eq_refl eq_refl).
Defined.

Lemma Marshal_keys_distinct_witness :
  List.NoDup (map fst body_with_rx)
  /\ map fst (firstn 5 body_with_rx) = ["key"; "radio"; "power"; "frequency"; "mode"]
  /\ (5 <= length body_with_rx <= 7)%nat.
Proof.
  exact (Marshal_keys_distinct (@buildPayload lib config split_on)
           body_with_rx eq_refl).
Defined.

(** A mode line whose first field is the single byte FF, which is not
    UTF-8: the body carries U+FFFD for it, not the byte. *)
Example invalid_utf8_mode_is_replaced :
  let FF := String "255"%char EmptyString in
  exists x body,
    @HamlibClient_GetData lib (lines (Ok "14074000") (Ok (FF ++ " 2400")) (Ok "50"))
    = (x, None)
    /\ Mode x = FF
    /\ @Marshal (@buildPayload lib config x) = Ok body
    /\ member "mode" body = Some (JString RuneError)
    /\ RuneError <> FF.
Proof.
  cbv zeta. eexists. eexists. split; [reflexivity|]. split; [reflexivity|].
  split; [reflexivity|]. split; [reflexivity|discriminate].
Qed.

Example coerceUTF8_examples :
  let e_acute := String "195"%char (String "169"%char EmptyString) in
  let cut_short := String "226"%char (String "130"%char EmptyString) in
  coerceUTF8 ("caf" ++ e_acute) = ("caf" ++ e_acute)%string
  /\ coerceUTF8 cut_short = (RuneError ++ RuneError)%string
  /\ ValidString "DATA" = true.
Proof. repeat split. Qed.

Definition body_usb : JSONObject :=
  [ ("key", JString "k3y"); ("radio", JString "RIG");
    ("power", JFloat (Float64.of_int 50));
    ("frequency", JInt 14074000); ("mode", JString "USB") ].

Lemma hamlib_body_has_no_rx_witness :
  member "mode" body_usb = Some (JString "USB")
  /\ member "frequency_rx" body_usb = None
  /\ member "mode_rx" body_usb = None.
Proof.
  exact (@hamlib_body_has_no_rx lib config rigctld_usb rigctld_usb_snapshot body_usb
           eq_refl eq_refl).
Defined.

Definition tuned_snapshot : RigData :=
  {| FreqVFOA := Float64.of_int 14074000; FreqVFOB := Float64.of_int 14076000;
     Mode := "USB"; ModeB := "LSB"; Split := 0; Power := Float64.of_int 50 |}.

Lemma identical_reads_post_once_witness :
  @loop lib flrig config RigData_zero [flrig_world tuned; flrig_world tuned]
  = (tuned_snapshot, [Posted tuned_snapshot; Unchanged tuned_snapshot]).
Proof.
  exact (@identical_reads_post_once lib flrig config RigData_zero
           (flrig_world tuned) (flrig_world tuned) tuned_snapshot
           eq_refl eq_refl eq_refl eq_refl eq_refl).
Defined.

Lemma lastData_kept_while_posts_fail_witness :
  fst (@loop lib flrig config RigData_zero
         [wavelog_down (flrig_world tuned); wavelog_down (flrig_world idle)])
  = RigData_zero.
Proof.
  apply (@lastData_kept_while_posts_fail lib flrig config).
  intros w url body resp [<-|[<-|[]]]; discriminate.
Defined.

Lemma unreachable_daemon_logged_at_debug_witness :
  exists err,
    @GetData lib hamlib (flrig_world tuned) = (RigData_zero, Some err)
    /\ read_error_level (fun _ => false) err = DebugLevel.
Proof.
  apply (@unreachable_daemon_logged_at_debug lib (fun _ => false) hamlib
           (flrig_world tuned) refused eq_refl).
  left. reflexivity.
Defined.

Lemma currentProfileConfig_same_flags_witness :
  currentProfileConfig home_file
    (with_setFlags (command_line "" "" "" "FT-891" ["interval"; "radio-name"])
                   ["radio-name"; "interval"; "radio-name"])
  = currentProfileConfig home_file
      (command_line "" "" "" "FT-891" ["interval"; "radio-name"]).
Proof.
  apply (currentProfileConfig_same_flags home_file
           (command_line "" "" "" "FT-891" ["interval"; "radio-name"])).
  intros n. cbn. tauto.
Defined.





Lemma default_profile_runs_as_set_witness :
  exists p,
    lookup_profile home_file "home" = Some p
    /\ forall cl',
        currentProfileName cl' = "" ->
        setFlags cl' = [] ->
        currentProfileConfig
          {| DefaultProfile := "home"; Profiles := Profiles home_file |} cl' = p.
Proof.
  exact (proj2 (@default_profile_runs_as_set lib home_file
                  (command_line "" "mine" "home" "RIG" []) (fun _ => None)
                  ltac:(discriminate) eq_refl)).
Defined.

Lemma missing_profile_needs_key_flag_witness :
  @main_from_merge lib (cfgFile_after_load (Failed refused))
    (command_line "" "" "" "FT-891" ["radio-name"]) (fun _ => None)
  = Fatalf KeyRequired.
Proof.
  apply (@missing_profile_needs_key_flag lib (Failed refused)
           (command_line "" "" "" "FT-891" ["radio-name"]) (fun _ => None)
           eq_refl eq_refl eq_refl).
  left. exists refused. reflexivity.
Defined.

End MoreExamples.
